(** * A float PID controller core: [base_pid] of pid.hpp / pid.cpp

    Shallow embedding of the class [base_pid] and of its evaluation entry
    point [run_pid], followed by the properties of the controller.

    Numeric model.  [float] is IEEE 754 binary32 and [double] is binary64,
    both with round-to-nearest-even, every operation rounded to its own
    format (no excess precision, no fused multiply-add).  The formats are
    the instances [prec = 24, emax = 128] and [prec = 53, emax = 1024] of
    the Standard Library's [SpecFloat].  [uint64_t] is [N] with the
    wrap-around of the subtraction written out.

    Memory model.  The four bindings [pv], [sp], [tb], [co] are pointers
    to cells owned by the caller: a pointer is [option addr] ([None] is
    [nullptr]) and the memory is a total store of floats, so aliased
    bindings share one cell. *)

From Stdlib Require Import ZArith NArith Bool List Lia.
From Stdlib Require Import Floats.SpecFloat.
Import ListNotations.

(** ** Floating-point formats *)

(** [float]: binary32. *)
Module F32.
Definition prec : Z := 24.
Definition emax : Z := 128.

Definition t := spec_float.

Definition zero : t := S754_zero false.
Definition add : t -> t -> t := SFadd prec emax.
Definition sub : t -> t -> t := SFsub prec emax.
Definition mul : t -> t -> t := SFmul prec emax.
Definition div : t -> t -> t := SFdiv prec emax.
Definition opp : t -> t := SFopp.
Definition ltb : t -> t -> bool := SFltb.
Definition leb : t -> t -> bool := SFleb.
Definition eqb : t -> t -> bool := SFeqb.

(** [a > b] in C is [b < a]. *)
Definition gtb (a b : t) : bool := ltb b a.

Definition is_nan (x : t) : bool :=
  match x with S754_nan => true | _ => false end.

Definition is_zero (x : t) : bool :=
  match x with S754_zero _ => true | _ => false end.

(** Conversion of an integer constant or of a [uint64_t] value. *)
Definition of_Z (z : Z) : t := binary_normalize prec emax z 0 false.
Definition of_u64 (n : N) : t := of_Z (Z.of_N n).

(** [__FLT_MAX__] = (2^24 - 1) * 2^104. *)
Definition FLT_MAX : t := SFmax_float prec emax.
End F32.

(** [double]: binary64, which the literals [1.0e-6] and [1.0e+6] have. *)
Module F64.
Definition prec : Z := 53.
Definition emax : Z := 1024.

Definition t := spec_float.

Definition mul : t -> t -> t := SFmul prec emax.
Definition div : t -> t -> t := SFdiv prec emax.
Definition opp : t -> t := SFopp.
Definition ltb : t -> t -> bool := SFltb.
Definition gtb (a b : t) : bool := ltb b a.

Definition of_Z (z : Z) : t := binary_normalize prec emax z 0 false.

(** Promotion [float -> double] (exact) and narrowing
    [double -> float] (rounds, may overflow to an infinity). *)
Definition of_f32 (x : F32.t) : t :=
  match x with
  | S754_finite s m e => binary_round prec emax s m e
  | _ => x
  end.

Definition to_f32 (x : t) : F32.t :=
  match x with
  | S754_finite s m e => binary_round F32.prec F32.emax s m e
  | _ => x
  end.

(** The literals: [1.0e+6] is an integer below 2^53; [1.0e-6] is the
    double nearest to 1/10^6, which the correctly rounded quotient of
    the two exact operands is. *)
Definition lit_1e6 : t := of_Z 1000000.
Definition lit_1em6 : t := div (of_Z 1) (of_Z 1000000).
End F64.

Definition float := F32.t.

(** [(float)1.0e-6] and [(float)1.0e+6]. *)
Definition f_1em6 : float := F64.to_f32 F64.lit_1em6.
Definition f_1e6 : float := F64.to_f32 F64.lit_1e6.

(** ** 64-bit unsigned arithmetic *)

Definition two64 : Z := 2 ^ 64.

(** [a - b] on [uint64_t]: the difference modulo 2^64. *)
Definition u64_sub (a b : N) : N :=
  Z.to_N ((Z.of_N a - Z.of_N b) mod two64).

(** [n++] on [uint64_t]. *)
Definition u64_incr (n : N) : N := ((n + 1) mod (2 ^ 64))%N.

(** ** Caller-owned cells *)

Definition addr := N.
Definition ptr := option addr.
Definition nullptr : ptr := None.

Definition mem := addr -> float.

Definition load (m : mem) (a : addr) : float := m a.

Definition store (m : mem) (a : addr) (v : float) : mem :=
  fun a' => if (a' =? a)%N then v else m a'.

(** ** The class [base_pid]

    One field per data member of pid.hpp, in the order of declaration;
    the first four are the private members that keep intermediate
    results of [run_pid]. *)

#[projections(primitive)]
Record base_pid : Type := {
  tmp_dt  : N;       (* uint64_t, elapsed time of the running call *)
  tmp_co  : float;   (* the last calculated control output *)
  tmp_err : float;
  d_iterm : float;
  pv : ptr;          (* process variable input *)
  sp : ptr;          (* setpoint input *)
  tb : ptr;          (* tieback input *)
  co : ptr;          (* control output *)
  kp : float;
  ki : float;        (* integral gain, times 1e-6 *)
  kd : float;        (* differential gain, times 1e+6 *)
  db : float;
  pvll : float;
  pvhl : float;
  spll : float;
  sphl : float;
  coll : float;
  cohl : float;
  dtmin : N;         (* uint64_t *)
  db_on : bool;
  man_on : bool;
  lts : N;           (* uint64_t, the last calculation timestamp *)
  lman_on : bool;    (* the last run manual mode on/off *)
  Iterm : float;
  lerr : float
}.

(** Assignment to one member. *)

Definition set_tmp_dt (v : N) (s : base_pid) : base_pid :=
  {| tmp_dt := v; tmp_co := tmp_co s; tmp_err := tmp_err s;
     d_iterm := d_iterm s; pv := pv s; sp := sp s; tb := tb s; co := co s;
     kp := kp s; ki := ki s; kd := kd s; db := db s; pvll := pvll s;
     pvhl := pvhl s; spll := spll s; sphl := sphl s; coll := coll s;
     cohl := cohl s; dtmin := dtmin s; db_on := db_on s; man_on := man_on s;
     lts := lts s; lman_on := lman_on s; Iterm := Iterm s; lerr := lerr s |}.

Definition set_tmp_co (v : float) (s : base_pid) : base_pid :=
  {| tmp_dt := tmp_dt s; tmp_co := v; tmp_err := tmp_err s;
     d_iterm := d_iterm s; pv := pv s; sp := sp s; tb := tb s; co := co s;
     kp := kp s; ki := ki s; kd := kd s; db := db s; pvll := pvll s;
     pvhl := pvhl s; spll := spll s; sphl := sphl s; coll := coll s;
     cohl := cohl s; dtmin := dtmin s; db_on := db_on s; man_on := man_on s;
     lts := lts s; lman_on := lman_on s; Iterm := Iterm s; lerr := lerr s |}.

Definition set_tmp_err (v : float) (s : base_pid) : base_pid :=
  {| tmp_dt := tmp_dt s; tmp_co := tmp_co s; tmp_err := v;
     d_iterm := d_iterm s; pv := pv s; sp := sp s; tb := tb s; co := co s;
     kp := kp s; ki := ki s; kd := kd s; db := db s; pvll := pvll s;
     pvhl := pvhl s; spll := spll s; sphl := sphl s; coll := coll s;
     cohl := cohl s; dtmin := dtmin s; db_on := db_on s; man_on := man_on s;
     lts := lts s; lman_on := lman_on s; Iterm := Iterm s; lerr := lerr s |}.

Definition set_d_iterm (v : float) (s : base_pid) : base_pid :=
  {| tmp_dt := tmp_dt s; tmp_co := tmp_co s; tmp_err := tmp_err s;
     d_iterm := v; pv := pv s; sp := sp s; tb := tb s; co := co s;
     kp := kp s; ki := ki s; kd := kd s; db := db s; pvll := pvll s;
     pvhl := pvhl s; spll := spll s; sphl := sphl s; coll := coll s;
     cohl := cohl s; dtmin := dtmin s; db_on := db_on s; man_on := man_on s;
     lts := lts s; lman_on := lman_on s; Iterm := Iterm s; lerr := lerr s |}.

Definition set_kp (v : float) (s : base_pid) : base_pid :=
  {| tmp_dt := tmp_dt s; tmp_co := tmp_co s; tmp_err := tmp_err s;
     d_iterm := d_iterm s; pv := pv s; sp := sp s; tb := tb s; co := co s;
     kp := v; ki := ki s; kd := kd s; db := db s; pvll := pvll s;
     pvhl := pvhl s; spll := spll s; sphl := sphl s; coll := coll s;
     cohl := cohl s; dtmin := dtmin s; db_on := db_on s; man_on := man_on s;
     lts := lts s; lman_on := lman_on s; Iterm := Iterm s; lerr := lerr s |}.

Definition set_ki (v : float) (s : base_pid) : base_pid :=
  {| tmp_dt := tmp_dt s; tmp_co := tmp_co s; tmp_err := tmp_err s;
     d_iterm := d_iterm s; pv := pv s; sp := sp s; tb := tb s; co := co s;
     kp := kp s; ki := v; kd := kd s; db := db s; pvll := pvll s;
     pvhl := pvhl s; spll := spll s; sphl := sphl s; coll := coll s;
     cohl := cohl s; dtmin := dtmin s; db_on := db_on s; man_on := man_on s;
     lts := lts s; lman_on := lman_on s; Iterm := Iterm s; lerr := lerr s |}.

Definition set_kd (v : float) (s : base_pid) : base_pid :=
  {| tmp_dt := tmp_dt s; tmp_co := tmp_co s; tmp_err := tmp_err s;
     d_iterm := d_iterm s; pv := pv s; sp := sp s; tb := tb s; co := co s;
     kp := kp s; ki := ki s; kd := v; db := db s; pvll := pvll s;
     pvhl := pvhl s; spll := spll s; sphl := sphl s; coll := coll s;
     cohl := cohl s; dtmin := dtmin s; db_on := db_on s; man_on := man_on s;
     lts := lts s; lman_on := lman_on s; Iterm := Iterm s; lerr := lerr s |}.

Definition set_db (v : float) (s : base_pid) : base_pid :=
  {| tmp_dt := tmp_dt s; tmp_co := tmp_co s; tmp_err := tmp_err s;
     d_iterm := d_iterm s; pv := pv s; sp := sp s; tb := tb s; co := co s;
     kp := kp s; ki := ki s; kd := kd s; db := v; pvll := pvll s;
     pvhl := pvhl s; spll := spll s; sphl := sphl s; coll := coll s;
     cohl := cohl s; dtmin := dtmin s; db_on := db_on s; man_on := man_on s;
     lts := lts s; lman_on := lman_on s; Iterm := Iterm s; lerr := lerr s |}.

Definition set_pvll (v : float) (s : base_pid) : base_pid :=
  {| tmp_dt := tmp_dt s; tmp_co := tmp_co s; tmp_err := tmp_err s;
     d_iterm := d_iterm s; pv := pv s; sp := sp s; tb := tb s; co := co s;
     kp := kp s; ki := ki s; kd := kd s; db := db s; pvll := v;
     pvhl := pvhl s; spll := spll s; sphl := sphl s; coll := coll s;
     cohl := cohl s; dtmin := dtmin s; db_on := db_on s; man_on := man_on s;
     lts := lts s; lman_on := lman_on s; Iterm := Iterm s; lerr := lerr s |}.

Definition set_pvhl (v : float) (s : base_pid) : base_pid :=
  {| tmp_dt := tmp_dt s; tmp_co := tmp_co s; tmp_err := tmp_err s;
     d_iterm := d_iterm s; pv := pv s; sp := sp s; tb := tb s; co := co s;
     kp := kp s; ki := ki s; kd := kd s; db := db s; pvll := pvll s;
     pvhl := v; spll := spll s; sphl := sphl s; coll := coll s;
     cohl := cohl s; dtmin := dtmin s; db_on := db_on s; man_on := man_on s;
     lts := lts s; lman_on := lman_on s; Iterm := Iterm s; lerr := lerr s |}.

Definition set_spll (v : float) (s : base_pid) : base_pid :=
  {| tmp_dt := tmp_dt s; tmp_co := tmp_co s; tmp_err := tmp_err s;
     d_iterm := d_iterm s; pv := pv s; sp := sp s; tb := tb s; co := co s;
     kp := kp s; ki := ki s; kd := kd s; db := db s; pvll := pvll s;
     pvhl := pvhl s; spll := v; sphl := sphl s; coll := coll s;
     cohl := cohl s; dtmin := dtmin s; db_on := db_on s; man_on := man_on s;
     lts := lts s; lman_on := lman_on s; Iterm := Iterm s; lerr := lerr s |}.

Definition set_sphl (v : float) (s : base_pid) : base_pid :=
  {| tmp_dt := tmp_dt s; tmp_co := tmp_co s; tmp_err := tmp_err s;
     d_iterm := d_iterm s; pv := pv s; sp := sp s; tb := tb s; co := co s;
     kp := kp s; ki := ki s; kd := kd s; db := db s; pvll := pvll s;
     pvhl := pvhl s; spll := spll s; sphl := v; coll := coll s;
     cohl := cohl s; dtmin := dtmin s; db_on := db_on s; man_on := man_on s;
     lts := lts s; lman_on := lman_on s; Iterm := Iterm s; lerr := lerr s |}.

Definition set_coll (v : float) (s : base_pid) : base_pid :=
  {| tmp_dt := tmp_dt s; tmp_co := tmp_co s; tmp_err := tmp_err s;
     d_iterm := d_iterm s; pv := pv s; sp := sp s; tb := tb s; co := co s;
     kp := kp s; ki := ki s; kd := kd s; db := db s; pvll := pvll s;
     pvhl := pvhl s; spll := spll s; sphl := sphl s; coll := v;
     cohl := cohl s; dtmin := dtmin s; db_on := db_on s; man_on := man_on s;
     lts := lts s; lman_on := lman_on s; Iterm := Iterm s; lerr := lerr s |}.

Definition set_cohl (v : float) (s : base_pid) : base_pid :=
  {| tmp_dt := tmp_dt s; tmp_co := tmp_co s; tmp_err := tmp_err s;
     d_iterm := d_iterm s; pv := pv s; sp := sp s; tb := tb s; co := co s;
     kp := kp s; ki := ki s; kd := kd s; db := db s; pvll := pvll s;
     pvhl := pvhl s; spll := spll s; sphl := sphl s; coll := coll s;
     cohl := v; dtmin := dtmin s; db_on := db_on s; man_on := man_on s;
     lts := lts s; lman_on := lman_on s; Iterm := Iterm s; lerr := lerr s |}.

Definition set_dtmin (v : N) (s : base_pid) : base_pid :=
  {| tmp_dt := tmp_dt s; tmp_co := tmp_co s; tmp_err := tmp_err s;
     d_iterm := d_iterm s; pv := pv s; sp := sp s; tb := tb s; co := co s;
     kp := kp s; ki := ki s; kd := kd s; db := db s; pvll := pvll s;
     pvhl := pvhl s; spll := spll s; sphl := sphl s; coll := coll s;
     cohl := cohl s; dtmin := v; db_on := db_on s; man_on := man_on s;
     lts := lts s; lman_on := lman_on s; Iterm := Iterm s; lerr := lerr s |}.

Definition set_db_on (v : bool) (s : base_pid) : base_pid :=
  {| tmp_dt := tmp_dt s; tmp_co := tmp_co s; tmp_err := tmp_err s;
     d_iterm := d_iterm s; pv := pv s; sp := sp s; tb := tb s; co := co s;
     kp := kp s; ki := ki s; kd := kd s; db := db s; pvll := pvll s;
     pvhl := pvhl s; spll := spll s; sphl := sphl s; coll := coll s;
     cohl := cohl s; dtmin := dtmin s; db_on := v; man_on := man_on s;
     lts := lts s; lman_on := lman_on s; Iterm := Iterm s; lerr := lerr s |}.

Definition set_man_on (v : bool) (s : base_pid) : base_pid :=
  {| tmp_dt := tmp_dt s; tmp_co := tmp_co s; tmp_err := tmp_err s;
     d_iterm := d_iterm s; pv := pv s; sp := sp s; tb := tb s; co := co s;
     kp := kp s; ki := ki s; kd := kd s; db := db s; pvll := pvll s;
     pvhl := pvhl s; spll := spll s; sphl := sphl s; coll := coll s;
     cohl := cohl s; dtmin := dtmin s; db_on := db_on s; man_on := v;
     lts := lts s; lman_on := lman_on s; Iterm := Iterm s; lerr := lerr s |}.

Definition set_lts (v : N) (s : base_pid) : base_pid :=
  {| tmp_dt := tmp_dt s; tmp_co := tmp_co s; tmp_err := tmp_err s;
     d_iterm := d_iterm s; pv := pv s; sp := sp s; tb := tb s; co := co s;
     kp := kp s; ki := ki s; kd := kd s; db := db s; pvll := pvll s;
     pvhl := pvhl s; spll := spll s; sphl := sphl s; coll := coll s;
     cohl := cohl s; dtmin := dtmin s; db_on := db_on s; man_on := man_on s;
     lts := v; lman_on := lman_on s; Iterm := Iterm s; lerr := lerr s |}.

Definition set_lman_on (v : bool) (s : base_pid) : base_pid :=
  {| tmp_dt := tmp_dt s; tmp_co := tmp_co s; tmp_err := tmp_err s;
     d_iterm := d_iterm s; pv := pv s; sp := sp s; tb := tb s; co := co s;
     kp := kp s; ki := ki s; kd := kd s; db := db s; pvll := pvll s;
     pvhl := pvhl s; spll := spll s; sphl := sphl s; coll := coll s;
     cohl := cohl s; dtmin := dtmin s; db_on := db_on s; man_on := man_on s;
     lts := lts s; lman_on := v; Iterm := Iterm s; lerr := lerr s |}.

Definition set_Iterm (v : float) (s : base_pid) : base_pid :=
  {| tmp_dt := tmp_dt s; tmp_co := tmp_co s; tmp_err := tmp_err s;
     d_iterm := d_iterm s; pv := pv s; sp := sp s; tb := tb s; co := co s;
     kp := kp s; ki := ki s; kd := kd s; db := db s; pvll := pvll s;
     pvhl := pvhl s; spll := spll s; sphl := sphl s; coll := coll s;
     cohl := cohl s; dtmin := dtmin s; db_on := db_on s; man_on := man_on s;
     lts := lts s; lman_on := lman_on s; Iterm := v; lerr := lerr s |}.

Definition set_lerr (v : float) (s : base_pid) : base_pid :=
  {| tmp_dt := tmp_dt s; tmp_co := tmp_co s; tmp_err := tmp_err s;
     d_iterm := d_iterm s; pv := pv s; sp := sp s; tb := tb s; co := co s;
     kp := kp s; ki := ki s; kd := kd s; db := db s; pvll := pvll s;
     pvhl := pvhl s; spll := spll s; sphl := sphl s; coll := coll s;
     cohl := cohl s; dtmin := dtmin s; db_on := db_on s; man_on := man_on s;
     lts := lts s; lman_on := lman_on s; Iterm := Iterm s; lerr := v |}.

(** ** Constructors

    The members [tmp_dt], [tmp_err] and [d_iterm] have no initializer:
    their indeterminate initial contents are the arguments [u_dt],
    [u_err] and [u_di]. *)

Definition DT_MIN_PID : N := 10.

Section Constructors.
Variables (u_dt : N) (u_err u_di : float).

(** [base_pid::base_pid()] *)
Definition base_pid_default : base_pid :=
  {| tmp_dt := u_dt; tmp_co := F32.zero; tmp_err := u_err; d_iterm := u_di;
     pv := nullptr; sp := nullptr; tb := nullptr; co := nullptr;
     kp := F32.zero; ki := F32.zero; kd := F32.zero; db := F32.zero;
     pvll := F32.opp F32.FLT_MAX; pvhl := F32.FLT_MAX;
     spll := F32.opp F32.FLT_MAX; sphl := F32.FLT_MAX;
     coll := F32.opp F32.FLT_MAX; cohl := F32.FLT_MAX;
     dtmin := DT_MIN_PID; db_on := false; man_on := true;
     lts := 0%N; lman_on := true; Iterm := F32.zero; lerr := F32.zero |}.

(** [base_pid::base_pid(ppv, psp, pco, ptie)] *)
Definition base_pid_simple (ppv psp pco ptie : ptr) : base_pid :=
  {| tmp_dt := u_dt; tmp_co := F32.zero; tmp_err := u_err; d_iterm := u_di;
     pv := ppv; sp := psp; tb := ptie; co := pco;
     kp := F32.zero; ki := F32.zero; kd := F32.zero; db := F32.zero;
     pvll := F32.opp F32.FLT_MAX; pvhl := F32.FLT_MAX;
     spll := F32.opp F32.FLT_MAX; sphl := F32.FLT_MAX;
     coll := F32.opp F32.FLT_MAX; cohl := F32.FLT_MAX;
     dtmin := DT_MIN_PID; db_on := false; man_on := true;
     lts := 0%N; lman_on := true; Iterm := F32.zero; lerr := F32.zero |}.

(** [base_pid::base_pid(ppv, psp, pco, ptie, kpv, ..., dtminv)] *)
Definition base_pid_full (ppv psp pco ptie : ptr)
    (kpv kiv kdv dbv pvllv pvhlv spllv sphlv collv cohlv : float)
    (db_onv man_onv : bool) (dtminv : N) : base_pid :=
  {| tmp_dt := u_dt; tmp_co := F32.zero; tmp_err := u_err; d_iterm := u_di;
     pv := ppv; sp := psp; tb := ptie; co := pco;
     kp := kpv; ki := F32.mul kiv f_1em6; kd := F32.mul kdv f_1e6;
     db := dbv;
     pvll := pvllv; pvhl := pvhlv; spll := spllv; sphl := sphlv;
     coll := collv; cohl := cohlv;
     dtmin := dtminv; db_on := db_onv; man_on := man_onv;
     lts := 0%N; lman_on := true; Iterm := F32.zero; lerr := F32.zero |}.
End Constructors.

(** ** Accessors

    A setter returns its [int] result and the controller after the
    call; the reference arguments are only read. *)

Definition get_pv_limits (s : base_pid) : float * float := (pvll s, pvhl s).

Definition set_pv_limits (ll hl : float) (s : base_pid) : Z * base_pid :=
  if F32.ltb hl ll then (-1, set_pvhl ll (set_pvll hl s))%Z
  else (0, set_pvhl hl (set_pvll ll s))%Z.

Definition get_sp_limits (s : base_pid) : float * float := (spll s, sphl s).

Definition set_sp_limits (ll hl : float) (s : base_pid) : Z * base_pid :=
  if F32.ltb hl ll then (-1, set_sphl ll (set_spll hl s))%Z
  else (0, set_sphl hl (set_spll ll s))%Z.

Definition get_co_limits (s : base_pid) : float * float := (coll s, cohl s).

Definition set_cp_limits (ll hl : float) (s : base_pid) : Z * base_pid :=
  if F32.ltb hl ll then (-1, set_cohl ll (set_coll hl s))%Z
  else (0, set_cohl hl (set_coll ll s))%Z.

(** [ki * 1.0e+6] and [kd * 1.0e-6] are products in [double], narrowed
    on assignment. *)
Definition get_gain_param (s : base_pid) : float * float * float :=
  (kp s,
   F64.to_f32 (F64.mul (F64.of_f32 (ki s)) F64.lit_1e6),
   F64.to_f32 (F64.mul (F64.of_f32 (kd s)) F64.lit_1em6)).

(** [__FLT_MAX__ * 1.0e-6], a [double]. *)
Definition kd_bound : F64.t := F64.mul (F64.of_f32 F32.FLT_MAX) F64.lit_1em6.

(** The rejection test of [set_gain_param], operand for operand. *)
Definition gain_rejected (kpv kiv kdv : float) : bool :=
  F32.ltb kpv (F32.opp F32.FLT_MAX) || F32.gtb kpv F32.FLT_MAX ||
  F32.ltb kiv (F32.opp F32.FLT_MAX) || F32.gtb kiv F32.FLT_MAX ||
  F64.ltb (F64.of_f32 kdv) (F64.opp kd_bound) ||
  F64.gtb (F64.of_f32 kpv) kd_bound.

Definition set_gain_param (kpv kiv kdv : float) (s : base_pid)
  : Z * base_pid :=
  if gain_rejected kpv kiv kdv then (-1, s)%Z
  else
    let s := set_kp kpv s in
    let s := set_ki (F64.to_f32 (F64.mul (F64.of_f32 kiv) F64.lit_1em6)) s in
    let s := set_kd (F64.to_f32 (F64.mul (F64.of_f32 kdv) F64.lit_1e6)) s in
    (0, s)%Z.

Definition get_db_param (s : base_pid) : float * bool := (db s, db_on s).

Definition set_db_param (dbv : float) (db_onv : bool) (s : base_pid)
  : Z * base_pid :=
  if F32.ltb dbv (F32.opp F32.FLT_MAX) || F32.gtb dbv F32.FLT_MAX
  then (-1, s)%Z
  else (0, set_db_on db_onv (set_db dbv s))%Z.

Definition get_man_param (s : base_pid) : bool := man_on s.

Definition set_man_param (man_onv : bool) (s : base_pid) : base_pid :=
  set_man_on man_onv s.

Definition get_dtmin_param (s : base_pid) : N := dtmin s.

Definition set_dtmin_param (dtminv : N) (s : base_pid) : Z * base_pid :=
  let s := set_dtmin dtminv s in
  if (dtmin s =? 0)%N then (-1, set_dtmin (u64_incr (dtmin s)) s)%Z
  else (0, s)%Z.

(** ** [run_pid]

    The six [return] statements of [run_pid], in source order.  The
    label is bookkeeping of the model: it records through which one a
    call left, and the [int] result is a function of it. *)

Inductive exit : Type :=
| ExitNoBinding      (* return -1: pv, sp or co is nullptr *)
| ExitZeroInterval   (* return -1: dtmin == 0 *)
| ExitRateLimited    (* return 0: tmp_dt < dtmin *)
| ExitManual         (* return 0: man_on *)
| ExitDeadband       (* return 0: db_on && tmp_err < db *)
| ExitLaw.           (* return 0: end of the control law *)

Definition result_of (x : exit) : Z :=
  match x with
  | ExitNoBinding | ExitZeroInterval => -1
  | ExitRateLimited | ExitManual | ExitDeadband | ExitLaw => 0
  end.

(** [(x < lo) ? lo : (x > hi) ? hi : x] *)
Definition clamp (lo hi x : float) : float :=
  if F32.ltb x lo then lo else if F32.gtb x hi then hi else x.

(** [Iterm = tmp_co] guarded by [lman_on] (the bumpless switch). *)
Definition bumpless (s : base_pid) : base_pid :=
  if lman_on s then set_Iterm (tmp_co s) (set_lman_on false s) else s.

(** The anti-windup test guarding the integration. *)
Definition windup (s : base_pid) : bool :=
  (F32.gtb (tmp_co s) (cohl s) && F32.gtb (d_iterm s) F32.zero) ||
  (F32.ltb (tmp_co s) (coll s) && F32.ltb (d_iterm s) F32.zero).

(** The statements under "Process Iterm". *)
Definition process_Iterm (s : base_pid) : base_pid :=
  if F32.eqb (ki s) F32.zero then set_Iterm F32.zero s
  else
    let s :=
      set_d_iterm
        (F32.mul (F32.mul (ki s) (tmp_err s)) (F32.of_u64 (tmp_dt s))) s in
    let s := set_tmp_co (F32.add (tmp_co s) (Iterm s)) s in
    if negb (windup s) then
      let s := set_tmp_co (F32.add (tmp_co s) (d_iterm s)) s in
      set_Iterm (F32.add (Iterm s) (d_iterm s)) s
    else s.

(** The proportional kick and the differential term, with the update of
    [lerr]. *)
Definition kick_and_Dterm (s : base_pid) : base_pid :=
  let s := set_tmp_co (F32.mul (kp s) (tmp_err s)) s in
  let s :=
    set_tmp_co
      (F32.add (tmp_co s)
         (F32.div (F32.mul (kd s) (F32.sub (tmp_err s) (lerr s)))
                  (F32.of_u64 (tmp_dt s)))) s in
  set_lerr (tmp_err s) s.

Definition run_pid_at (tstamp : N) (s : base_pid) (m : mem)
  : exit * base_pid * mem :=
  match pv s, sp s, co s with
  | Some ppv, Some psp, Some pco =>
    if (dtmin s =? 0)%N then (ExitZeroInterval, s, m)
    else
      let s := set_tmp_dt (u64_sub tstamp (lts s)) s in
      if (tmp_dt s <? dtmin s)%N then
        (ExitRateLimited, s, store m pco (tmp_co s))
      else
        let s := set_lts tstamp s in
        if man_on s then
          let s :=
            set_tmp_co
              (match tb s with None => F32.zero | Some ptb => load m ptb end)
              s in
          let s := set_tmp_co (clamp (coll s) (cohl s) (tmp_co s)) s in
          let m := store m pco (tmp_co s) in
          let s := set_lman_on true s in
          (ExitManual, s, m)
        else
          let s := bumpless s in
          let s := set_tmp_err (F32.sub (load m psp) (load m ppv)) s in
          if db_on s && F32.ltb (tmp_err s) (db s) then
            let s := set_lerr (tmp_err s) s in
            (ExitDeadband, s, store m pco (tmp_co s))
          else
            let s := kick_and_Dterm s in
            let s := process_Iterm s in
            let s := set_tmp_co (clamp (coll s) (cohl s) (tmp_co s)) s in
            (ExitLaw, s, store m pco (tmp_co s))
  | _, _, _ => (ExitNoBinding, s, m)
  end.

(** [int base_pid::run_pid(uint64_t tstamp)] *)
Definition run_pid (tstamp : N) (s : base_pid) (m : mem)
  : Z * base_pid * mem :=
  let '(x, s', m') := run_pid_at tstamp s m in (result_of x, s', m').

(** ** Sessions

    What a caller can do with a controller between its construction and
    some later moment: call a setter, call [run_pid], or write one of
    its own cells. *)

Inductive call : Type :=
| Call_set_pv_limits (ll hl : float)
| Call_set_sp_limits (ll hl : float)
| Call_set_cp_limits (ll hl : float)
| Call_set_gain_param (kpv kiv kdv : float)
| Call_set_db_param (dbv : float) (db_onv : bool)
| Call_set_man_param (man_onv : bool)
| Call_set_dtmin_param (dtminv : N)
| Call_run_pid (tstamp : N)
| Caller_writes (a : addr) (v : float).

Definition exec (c : call) (sm : base_pid * mem) : base_pid * mem :=
  let (s, m) := sm in
  match c with
  | Call_set_pv_limits ll hl => (snd (set_pv_limits ll hl s), m)
  | Call_set_sp_limits ll hl => (snd (set_sp_limits ll hl s), m)
  | Call_set_cp_limits ll hl => (snd (set_cp_limits ll hl s), m)
  | Call_set_gain_param kpv kiv kdv => (snd (set_gain_param kpv kiv kdv s), m)
  | Call_set_db_param dbv db_onv => (snd (set_db_param dbv db_onv s), m)
  | Call_set_man_param man_onv => (set_man_param man_onv s, m)
  | Call_set_dtmin_param dtminv => (snd (set_dtmin_param dtminv s), m)
  | Call_run_pid tstamp =>
      let '(_, s', m') := run_pid_at tstamp s m in (s', m')
  | Caller_writes a v => (s, store m a v)
  end.

(** The calls of a session, executed first to last. *)
Definition session (cs : list call) (sm : base_pid * mem) : base_pid * mem :=
  fold_left (fun sm c => exec c sm) cs sm.

(** The exits of the [run_pid] calls of a session, first to last. *)
Fixpoint exits (cs : list call) (sm : base_pid * mem) : list exit :=
  match cs with
  | [] => []
  | c :: cs' =>
      match c with
      | Call_run_pid tstamp =>
          [fst (fst (run_pid_at tstamp (fst sm) (snd sm)))]
      | _ => []
      end ++ exits cs' (exec c sm)
  end.

(** An effective evaluation is a call that passes the time-slice test;
    it is automatic when the control law, gated or not, is reached. *)
Definition effective (x : exit) : bool :=
  match x with
  | ExitManual | ExitDeadband | ExitLaw => true
  | _ => false
  end.

Definition effective_auto (x : exit) : bool :=
  match x with
  | ExitDeadband | ExitLaw => true
  | _ => false
  end.

(** No call of the session reached the control law; no call of the
    session passed the time-slice test. *)
Definition no_auto_evaluation (xs : list exit) : bool :=
  forallb (fun x => negb (effective_auto x)) xs.

Definition no_evaluation (xs : list exit) : bool :=
  forallb (fun x => negb (effective x)) xs.

(** [lo <= x <= hi] *)
Definition within (lo hi x : float) : bool := F32.leb lo x && F32.leb x hi.

(** ** The cells and the controllers of pid_unittest.cpp *)

Definition cells (vpv vsp vco vtb : float) : mem :=
  fun a => match a with
           | 0%N => vpv | 1%N => vsp | 2%N => vco | 3%N => vtb
           | _ => F32.zero
           end.

Definition a_pv : ptr := Some 0%N.
Definition a_sp : ptr := Some 1%N.
Definition a_co : ptr := Some 2%N.
Definition a_tb : ptr := Some 3%N.

Definition fz (z : Z) : float := F32.of_Z z.

(** The full constructor with the default arguments of pid.hpp. *)
Definition base_pid_gains (ppv psp pco ptie : ptr) (kpv kiv kdv dbv : float)
  : base_pid :=
  base_pid_full 0%N F32.zero F32.zero ppv psp pco ptie kpv kiv kdv dbv
    (F32.opp F32.FLT_MAX) F32.FLT_MAX (F32.opp F32.FLT_MAX) F32.FLT_MAX
    (F32.opp F32.FLT_MAX) F32.FLT_MAX false true DT_MIN_PID.

Definition out_of (r : exit * base_pid * mem) : float := snd r 2%N.

(** ** Intermediate states of a call

    Names for the controller at three points of [run_pid], used to state
    what a call does. *)

(** After [tmp_dt = tstamp - lts] and [lts = tstamp]. *)
Definition slice (tstamp : N) (s : base_pid) : base_pid :=
  set_lts tstamp (set_tmp_dt (u64_sub tstamp (lts s)) s).

(** After the bumpless switch and [tmp_err = *sp - *pv]: the state in
    which the deadband test is made. *)
Definition at_gate (tstamp : N) (s : base_pid) (m : mem) (ppv psp : addr)
  : base_pid :=
  set_tmp_err (F32.sub (load m psp) (load m ppv)) (bumpless (slice tstamp s)).

(** The final clamp, [tmp_co = (tmp_co < coll) ? coll : ...]. *)
Definition final_clamp (s : base_pid) : base_pid :=
  set_tmp_co (clamp (coll s) (cohl s) (tmp_co s)) s.

(** ** Kinds of cycle *)

(** The call passes both precondition checks. *)
Definition ready (s : base_pid) (ppv psp pco : addr) : Prop :=
  pv s = Some ppv /\ sp s = Some psp /\ co s = Some pco /\ dtmin s <> 0%N.

(** An effective evaluation in automatic mode: the call is ready, the
    time slice has elapsed and manual mode is off. *)
Definition auto_cycle (tstamp : N) (s : base_pid) (ppv psp pco : addr)
  : Prop :=
  ready s ppv psp pco /\
  (dtmin s <= u64_sub tstamp (lts s))%N /\ man_on s = false.

(** ** The integral step, as the specification words it

    From the gain, the error, the elapsed time, the two output limits,
    the existing integral term [I] and the running output total
    [total]: the new integral term and the new running total. *)
Definition integral_step_spec (gain err elapsed lo hi I total : float)
  : float * float :=
  if F32.eqb gain F32.zero then (F32.zero, total)
  else
    let delta := F32.mul (F32.mul gain err) elapsed in
    let total := F32.add total I in
    if (F32.gtb total hi && F32.gtb delta F32.zero) ||
       (F32.ltb total lo && F32.ltb delta F32.zero)
    then (I, total)
    else (F32.add I delta, F32.add total delta).

(** One step of the Execution test. *)
Definition law_test (kpv kiv kdv : Z) (vpv vsp : Z) : exit * float :=
  let s :=
    set_man_param false
      (base_pid_gains a_pv a_sp a_co a_tb (fz kpv) (fz kiv) (fz kdv) (fz 0)) in
  let r := run_pid_at 1000 s (cells (fz vpv) (fz vsp) (fz 0) (fz 2)) in
  (fst (fst r), out_of r).

(** Both steps of the Execution test: a call at 1000, the caller's new
    pv and sp, a call at 2000; the result is the output cell. *)
Definition step_test (kpv kiv kdv : Z) (vpv vsp vpv2 vsp2 : Z) : float :=
  let s :=
    set_man_param false
      (base_pid_gains a_pv a_sp a_co a_tb (fz kpv) (fz kiv) (fz kdv) (fz 0)) in
  snd (session [Call_run_pid 1000; Caller_writes 0%N (fz vpv2);
                Caller_writes 1%N (fz vsp2); Call_run_pid 2000]
         (s, cells (fz vpv) (fz vsp) (fz 0) (fz 2))) 2%N.

(** ** Sample controllers *)

(** Gains 1, 1, 1, automatic mode, default limits. *)
Definition pid_auto : base_pid :=
  set_man_param false
    (base_pid_gains a_pv a_sp a_co a_tb (fz 1) (fz 1) (fz 1) (fz 0)).

(** The same with the deadband 5 switched on. *)
Definition pid_deadband : base_pid :=
  snd (set_db_param (fz 5) true pid_auto).

(** pv = 0, sp = 1, co = 0, tb = 2. *)
Definition mem_step : mem := cells (fz 0) (fz 1) (fz 0) (fz 2).

(** Output limits [5, 10], everything else as the defaults: manual
    mode, no tieback value but the cell's. *)
Definition pid_narrow : base_pid :=
  base_pid_full 0%N F32.zero F32.zero a_pv a_sp a_co a_tb
    (fz 0) (fz 0) (fz 0) (fz 0)
    (F32.opp F32.FLT_MAX) F32.FLT_MAX (F32.opp F32.FLT_MAX) F32.FLT_MAX
    (fz 5) (fz 10) false true DT_MIN_PID.

(** A pure integrator, ki = 1, in automatic mode with the output limits
    [-1, 1]. *)
Definition pid_integrating : base_pid :=
  base_pid_full 0%N F32.zero F32.zero a_pv a_sp a_co a_tb
    (fz 0) (fz 1) (fz 0) (fz 0)
    (F32.opp F32.FLT_MAX) F32.FLT_MAX (F32.opp F32.FLT_MAX) F32.FLT_MAX
    (fz (-1)) (fz 1) false false DT_MIN_PID.

(** A pure integrator constructed in manual mode, default limits. *)
Definition pid_ki : base_pid :=
  base_pid_gains a_pv a_sp a_co a_tb (fz 0) (fz 1) (fz 0) (fz 0).

(** pv = 0, sp = 0, co = 0, tb = 4. *)
Definition mem_tb4 : mem := cells (fz 0) (fz 0) (fz 0) (fz 4).

(** pv = 0, sp = 1, co = 0 and a tieback cell that holds a NaN. *)
Definition mem_tb_nan : mem := cells (fz 0) (fz 1) (fz 0) S754_nan.

(** 2^110, a float above [__FLT_MAX__ * 1.0e-6]. *)
Definition f_2p110 : float := S754_finite false 8388608 87.

(** ** Constructed controllers *)

Inductive constructed : base_pid -> Prop :=
| constructed_default (u_dt : N) (u_err u_di : float) :
    constructed (base_pid_default u_dt u_err u_di)
| constructed_simple (u_dt : N) (u_err u_di : float) (ppv psp pco ptie : ptr) :
    constructed (base_pid_simple u_dt u_err u_di ppv psp pco ptie)
| constructed_full (u_dt : N) (u_err u_di : float) (ppv psp pco ptie : ptr)
    (kpv kiv kdv dbv pvllv pvhlv spllv sphlv collv cohlv : float)
    (db_onv man_onv : bool) (dtminv : N) :
    constructed
      (base_pid_full u_dt u_err u_di ppv psp pco ptie kpv kiv kdv dbv
         pvllv pvhlv spllv sphlv collv cohlv db_onv man_onv dtminv).

(** ** Values of the format and predicates on controllers *)

(** A float that binary32 can hold: the mantissa of a finite one has at
    most 24 bits and its exponent is in range. *)
Definition representable (x : float) : bool :=
  valid_binary F32.prec F32.emax x.

Definition is_inf (x : float) : bool :=
  match x with S754_infinity _ => true | _ => false end.

(** The stored last output is a NaN or respects the output limits. *)
Definition output_ok (s : base_pid) : bool :=
  F32.is_nan (tmp_co s) || within (coll s) (cohl s) (tmp_co s).

(** The calls that assign the output limits. *)
Definition sets_co_limits (c : call) : bool :=
  match c with Call_set_cp_limits _ _ => true | _ => false end.

(** The configuration: everything but the transient state and the
    scratch members. *)
Definition same_config (s s' : base_pid) : Prop :=
  pv s' = pv s /\ sp s' = sp s /\ tb s' = tb s /\ co s' = co s /\
  kp s' = kp s /\ ki s' = ki s /\ kd s' = kd s /\ db s' = db s /\
  pvll s' = pvll s /\ pvhl s' = pvhl s /\
  spll s' = spll s /\ sphl s' = sphl s /\
  coll s' = coll s /\ cohl s' = cohl s /\
  dtmin s' = dtmin s /\ db_on s' = db_on s /\ man_on s' = man_on s.

(** The transient state that only [run_pid] is meant to assign. *)
Definition same_transient (s s' : base_pid) : Prop :=
  lts s' = lts s /\ lman_on s' = lman_on s /\ Iterm s' = Iterm s /\
  lerr s' = lerr s /\ tmp_co s' = tmp_co s.

(** The calls of the seven setters. *)
Definition is_setter (c : call) : bool :=
  match c with
  | Call_run_pid _ | Caller_writes _ _ => false
  | _ => true
  end.

Definition is_no_binding (x : exit) : bool :=
  match x with ExitNoBinding => true | _ => false end.

Definition is_zero_interval (x : exit) : bool :=
  match x with ExitZeroInterval => true | _ => false end.

(** The minimal constructor on the four cells of the unit tests. *)
Definition pid_simple : base_pid :=
  base_pid_simple 0%N F32.zero F32.zero a_pv a_sp a_co a_tb.

(** ** The output of a manual cycle *)

Definition is_manual (x : exit) : bool :=
  match x with ExitManual => true | _ => false end.

(** What a manual cycle reads: [*tb], or 0 without a tieback binding. *)
Definition tieback (s : base_pid) (m : mem) : float :=
  match tb s with None => F32.zero | Some ptb => load m ptb end.

(** What a manual cycle run on [s] and [m] writes: the tieback clamped
    to the output limits of that moment. *)
Definition manual_output (s : base_pid) (m : mem) : float :=
  clamp (coll s) (cohl s) (tieback s m).

(** The output of the last manual cycle of a session, and [v] for a
    session without one. *)
Fixpoint seed_after (cs : list call) (sm : base_pid * mem) (v : float)
  : float :=
  match cs with
  | [] => v
  | c :: cs' =>
      seed_after cs' (exec c sm)
        match c with
        | Call_run_pid tstamp =>
            if is_manual (fst (fst (run_pid_at tstamp (fst sm) (snd sm))))
            then manual_output (fst sm) (snd sm)
            else v
        | _ => v
        end
  end.

(** The integrator [pid_ki] after one manual cycle with the tieback at
    4 and the switch to automatic: [tmp_co = 4], [Iterm = 0], [lman_on]
    set; the same with the deadband 5 switched on; the cells then. *)
Definition pid_after_manual : base_pid :=
  fst (session [Call_run_pid 10; Call_set_man_param false] (pid_ki, mem_tb4)).

Definition pid_gated_after_manual : base_pid :=
  fst (session [Call_run_pid 10; Call_set_man_param false;
                Call_set_db_param (fz 5) true] (pid_ki, mem_tb4)).

Definition mem_after_manual : mem :=
  snd (session [Call_run_pid 10; Call_set_man_param false] (pid_ki, mem_tb4)).

(** The arithmetic stays folded when a state is simplified. *)
Arguments F32.add : simpl never.
Arguments F32.sub : simpl never.
Arguments F32.mul : simpl never.
Arguments F32.div : simpl never.
Arguments F32.ltb : simpl never.
Arguments F32.gtb : simpl never.
Arguments F32.leb : simpl never.
Arguments F32.eqb : simpl never.
Arguments F32.of_u64 : simpl never.
Arguments u64_sub : simpl never.
Arguments clamp : simpl never.
Arguments within : simpl never.
Arguments store : simpl never.
Arguments load : simpl never.

(** * Properties *)

(** Case analysis on the condition of the first conditional of the
    goal. *)
Ltac case_if :=
  match goal with
  | |- context [if ?b then _ else _] => destruct b
  end.

(** ** Comparison of floats *)

Lemma SFcompare_refl (x : spec_float) :
  F32.is_nan x = false -> SFcompare x x = Some Eq.
Proof.
  destruct x as [s | s | | s m e]; simpl; try discriminate; intros _.
  - reflexivity.
  - destruct s; reflexivity.
  - rewrite Z.compare_refl, Pos.compare_cont_refl. destruct s; reflexivity.
Qed.

Lemma SFcompare_antisym (x y : spec_float) :
  SFcompare y x = option_map CompOpp (SFcompare x y).
Proof.
  destruct x as [s | s | | s m e], y as [s' | s' | | s' m' e']; simpl;
    try reflexivity;
    try (destruct s; reflexivity); try (destruct s'; reflexivity);
    try (destruct s, s'; reflexivity).
  assert (Hm : Pos.compare_cont Eq m' m = CompOpp (Pos.compare_cont Eq m m'))
    by (now rewrite Pos.compare_cont_antisym).
  destruct s, s'; try reflexivity;
    rewrite (Z.compare_antisym e e'), Hm;
    destruct (e ?= e')%Z; simpl; try reflexivity.
Qed.

Lemma SFcompare_nan (x y : spec_float) :
  SFcompare x y = None <-> F32.is_nan x = true \/ F32.is_nan y = true.
Proof.
  destruct x as [s | s | | s m e], y as [s' | s' | | s' m' e']; simpl;
    split; intros H; try discriminate; try tauto;
    try (now left); try (now right);
    destruct H; discriminate.
Qed.

Lemma leb_not_nan (x y : float) :
  F32.leb x y = true -> F32.is_nan x = false /\ F32.is_nan y = false.
Proof.
  unfold F32.leb, SFleb. intros H.
  destruct (SFcompare x y) eqn:E; [ | discriminate ].
  destruct (F32.is_nan x) eqn:Ex, (F32.is_nan y) eqn:Ey; auto;
    assert (SFcompare x y = None) by (apply SFcompare_nan; auto);
    congruence.
Qed.

Lemma leb_refl (x : float) : F32.is_nan x = false -> F32.leb x x = true.
Proof.
  intros H. unfold F32.leb, SFleb. now rewrite SFcompare_refl.
Qed.

Lemma ltb_false_leb (x y : float) :
  F32.is_nan x = false -> F32.is_nan y = false ->
  F32.ltb x y = false -> F32.leb y x = true.
Proof.
  unfold F32.ltb, F32.leb, SFltb, SFleb. intros Hx Hy.
  rewrite (SFcompare_antisym x y).
  destruct (SFcompare x y) as [[ | | ] | ] eqn:E; simpl; try easy.
  assert (F32.is_nan x = true \/ F32.is_nan y = true)
    by (now apply SFcompare_nan).
  intuition congruence.
Qed.

(** ** The clamp *)

Lemma clamp_nan (lo hi x : float) :
  F32.is_nan x = true -> clamp lo hi x = x.
Proof.
  destruct x; try discriminate; intros _.
  unfold clamp, F32.ltb, F32.gtb, F32.ltb, SFltb; simpl.
  destruct hi; reflexivity.
Qed.

Lemma clamp_within (lo hi x : float) :
  F32.leb lo hi = true -> F32.is_nan x = false ->
  within lo hi (clamp lo hi x) = true.
Proof.
  intros Hb Hx. destruct (leb_not_nan _ _ Hb) as [Hlo Hhi].
  unfold clamp, within.
  destruct (F32.ltb x lo) eqn:E1.
  - now rewrite leb_refl, Hb.
  - unfold F32.gtb. destruct (F32.ltb hi x) eqn:E2.
    + now rewrite Hb, leb_refl.
    + now rewrite !ltb_false_leb.
Qed.

Lemma clamp_nan_or_within (lo hi x : float) :
  F32.leb lo hi = true ->
  F32.is_nan (clamp lo hi x) = true \/ within lo hi (clamp lo hi x) = true.
Proof.
  intros Hb. destruct (F32.is_nan x) eqn:Hx.
  - left. now rewrite clamp_nan.
  - right. now apply clamp_within.
Qed.

Lemma within_not_nan (lo hi x : float) :
  within lo hi x = true -> F32.is_nan x = false.
Proof.
  unfold within. intros H. apply andb_prop in H as [H _].
  now apply leb_not_nan in H.
Qed.

(** ** Rounding never turns a positive integer into zero

    [(float)tmp_dt] is a correctly rounded conversion.  Above the
    subnormal range the rounding keeps at least the leading bit of the
    mantissa, so the result is a finite number other than zero, or an
    infinity. *)

Section RoundPositive.
Variables prec emax : Z.
Hypothesis prec_pos : (1 <= prec)%Z.

Lemma digits2_pos_le (m : positive) :
  (2 ^ (Zpos (digits2_pos m) - 1) <= Zpos m)%Z.
Proof.
  induction m as [p IH | p IH | ]; simpl digits2_pos.
  - rewrite Pos2Z.inj_succ.
    replace (Z.succ (Zpos (digits2_pos p)) - 1)%Z
      with (Z.succ (Zpos (digits2_pos p) - 1))%Z by lia.
    rewrite Z.pow_succ_r by lia. lia.
  - rewrite Pos2Z.inj_succ.
    replace (Z.succ (Zpos (digits2_pos p)) - 1)%Z
      with (Z.succ (Zpos (digits2_pos p) - 1))%Z by lia.
    rewrite Z.pow_succ_r by lia. lia.
  - simpl. lia.
Qed.

Lemma shr_1_keeps (k : Z) (r : shr_record) :
  (0 <= k)%Z -> (2 ^ (k + 1) <= shr_m r)%Z -> (2 ^ k <= shr_m (shr_1 r))%Z.
Proof.
  intros Hk H. rewrite Z.pow_add_r, Z.pow_1_r in H by lia.
  assert (0 < 2 ^ k)%Z by (apply Z.pow_pos_nonneg; lia).
  destruct r as [m b c]; simpl in *.
  destruct m as [ | [p | p | ] | p ]; simpl; lia.
Qed.

Lemma iter_shr_1_keeps (p : positive) :
  forall (k : Z) (r : shr_record),
    (0 <= k)%Z -> (2 ^ (k + Zpos p) <= shr_m r)%Z ->
    (2 ^ k <= shr_m (iter_pos shr_1 p r))%Z.
Proof.
  induction p as [p IH | p IH | ]; intros k r Hk H; simpl iter_pos.
  - apply IH; [ lia | ]. apply IH; [ lia | ].
    apply shr_1_keeps; [ lia | ].
    replace (k + Zpos p + Zpos p + 1)%Z with (k + Zpos p~1)%Z by lia.
    exact H.
  - apply IH; [ lia | ]. apply IH; [ lia | ].
    replace (k + Zpos p + Zpos p)%Z with (k + Zpos p~0)%Z by lia.
    exact H.
  - now apply shr_1_keeps.
Qed.

Lemma shr_record_of_loc_m (m : Z) (l : location) :
  shr_m (shr_record_of_loc m l) = m.
Proof. destruct l as [ | [ | | ] ]; reflexivity. Qed.

Lemma shr_fexp_positive (m : positive) (e : Z) (l : location) :
  (emin prec emax <= e)%Z ->
  (1 <= shr_m (fst (shr_fexp prec emax (Zpos m) e l)))%Z /\
  (e <= snd (shr_fexp prec emax (Zpos m) e l))%Z.
Proof.
  intros He. unfold shr_fexp, shr. simpl Zdigits2.
  pose proof (digits2_pos_le m) as Hd.
  set (d := Zpos (digits2_pos m)) in *.
  destruct (fexp prec emax (d + e) - e)%Z as [ | n | n ] eqn:En;
    simpl fst; simpl snd; rewrite ?shr_record_of_loc_m; try lia.
  split; [ | lia ].
  change 1%Z with (2 ^ 0)%Z. apply iter_shr_1_keeps; [ lia | ].
  rewrite shr_record_of_loc_m. simpl Z.add.
  apply Z.le_trans with (2 := Hd). apply Z.pow_le_mono_r; [ lia | ].
  unfold fexp in En. subst d. lia.
Qed.

Lemma round_nearest_even_ge (mx : Z) (lx : location) :
  (mx <= round_nearest_even mx lx)%Z.
Proof.
  destruct lx as [ | [ | | ] ]; simpl; try lia.
  destruct (Z.even mx); lia.
Qed.

Lemma binary_round_aux_positive (sx : bool) (m : positive) (e : Z)
    (l : location) :
  (emin prec emax <= e)%Z ->
  F32.is_zero (binary_round_aux prec emax sx (Zpos m) e l) = false /\
  F32.is_nan (binary_round_aux prec emax sx (Zpos m) e l) = false.
Proof.
  intros He. unfold binary_round_aux.
  destruct (shr_fexp_positive m e l He) as [H1 H1e].
  destruct (shr_fexp prec emax (Zpos m) e l) as [r1 e1]; simpl in H1, H1e.
  pose proof (round_nearest_even_ge (shr_m r1) (loc_of_shr_record r1)) as Hr.
  destruct (round_nearest_even (shr_m r1) (loc_of_shr_record r1))
    as [ | m2 | m2 ]; try lia.
  assert (He1 : (emin prec emax <= e1)%Z) by lia.
  destruct (shr_fexp_positive m2 e1 loc_Exact He1) as [H2 _].
  destruct (shr_fexp prec emax (Zpos m2) e1 loc_Exact) as [r2 e2];
    simpl in H2.
  destruct (shr_m r2) as [ | m3 | m3 ]; try lia.
  destruct (e2 <=? emax - prec)%Z; split; reflexivity.
Qed.

Lemma binary_round_positive (sx : bool) (m : positive) (e : Z) :
  (emin prec emax <= e)%Z ->
  F32.is_zero (binary_round prec emax sx m e) = false /\
  F32.is_nan (binary_round prec emax sx m e) = false.
Proof.
  intros He. unfold binary_round, shl_align.
  set (e' := fexp prec emax (Zpos (digits2_pos m) + e)).
  assert (emin prec emax <= e')%Z by (unfold e', fexp; lia).
  destruct (e' - e)%Z; now apply binary_round_aux_positive.
Qed.
End RoundPositive.

Lemma of_u64_positive (n : N) :
  n <> 0%N ->
  F32.is_zero (F32.of_u64 n) = false /\ F32.is_nan (F32.of_u64 n) = false.
Proof.
  intros Hn. destruct n as [ | p ]; [ congruence | ].
  unfold F32.of_u64, F32.of_Z. simpl Z.of_N. simpl binary_normalize.
  apply binary_round_positive; [ unfold F32.prec; lia | ].
  unfold emin, F32.prec, F32.emax. lia.
Qed.

(** ** The unit tests, replayed *)

(** Execution, step up: the outputs -1, 0.001, -1000 and 1001.001,
    the second and the last as the nearest floats. *)
Example test_step_up :
  law_test 1 0 0 1 0 = (ExitLaw, fz (-1)) /\
  law_test 0 1 0 0 1 = (ExitLaw, S754_finite false 8589935 (-33)) /\
  law_test 0 0 1 1 0 = (ExitLaw, fz (-1000)) /\
  law_test 1 1 1 0 1 = (ExitLaw, S754_finite false 16400400 (-14)).
Proof. vm_compute. repeat split. Qed.

(** Execution, step down: the outputs 1, 0, 2000 and -2001. *)
Example test_step_down :
  step_test 1 0 0 1 0 (-1) 0 = fz 1 /\
  step_test 0 1 0 0 1 0 (-1) = fz 0 /\
  step_test 0 0 1 1 0 (-1) 0 = fz 2000 /\
  step_test 1 1 1 0 1 0 (-1) = fz (-2001).
Proof. vm_compute. repeat split. Qed.

(** The subtraction of timestamps wraps around. *)
Example u64_sub_wraps : u64_sub 5 10 = (2 ^ 64 - 5)%N.
Proof. reflexivity. Qed.

(** Constructors: [pid0] is not bound, [pid1] waits for its time slice
    and replays 0, [pid2] runs in manual mode and copies the tieback. *)
Example test_constructors :
  fst (fst (run_pid 10 (base_pid_default 0 F32.zero F32.zero)
              (cells (fz 0) (fz 1) (fz 3) (fz 4)))) = (-1)%Z /\
  (let r := run_pid 0 (base_pid_simple 0 F32.zero F32.zero a_pv a_sp a_co a_tb)
              (cells (fz 0) (fz 1) (fz 3) (fz 4)) in
   fst (fst r) = 0%Z /\ snd r 2%N = fz 0) /\
  (let r := run_pid 10
              (base_pid_gains a_pv a_sp a_co a_tb (fz 4) (fz 3) (fz 2) (fz 1))
              (cells (fz 0) (fz 1) (fz 3) (fz 4)) in
   fst (fst r) = 0%Z /\ snd r 2%N = fz 4).
Proof. vm_compute. repeat split. Qed.

(** ** Paths of [run_pid] *)

(** Both failure exits leave the controller and the cells alone. *)
Lemma run_pid_at_failure (tstamp : N) (s : base_pid) (m : mem) :
  pv s = nullptr \/ sp s = nullptr \/ co s = nullptr \/ dtmin s = 0%N ->
  (fst (fst (run_pid_at tstamp s m)) = ExitNoBinding \/
   fst (fst (run_pid_at tstamp s m)) = ExitZeroInterval) /\
  snd (fst (run_pid_at tstamp s m)) = s /\
  snd (run_pid_at tstamp s m) = m.
Proof.
  unfold run_pid_at, nullptr. intros H.
  destruct (pv s), (sp s), (co s); simpl; auto.
  destruct (dtmin s =? 0)%N eqn:E; simpl; auto.
  apply N.eqb_neq in E. intuition congruence.
Qed.

(** With the three bindings set and a positive time slice the call
    leaves through one of the four successful exits. *)
Lemma run_pid_at_ready (tstamp : N) (s : base_pid) (m : mem) :
  pv s <> nullptr -> sp s <> nullptr -> co s <> nullptr -> dtmin s <> 0%N ->
  result_of (fst (fst (run_pid_at tstamp s m))) = 0%Z.
Proof.
  unfold run_pid_at, nullptr. intros Hpv Hsp Hco Hdt.
  destruct (pv s), (sp s), (co s); try congruence.
  apply N.eqb_neq in Hdt. rewrite Hdt.
  repeat case_if; reflexivity.
Qed.

(** C6: [run_pid] returns -1 exactly when [pv], [sp] or [co] is null or
    the stored [dtmin] is 0; a failing call changes neither the
    controller nor any cell (so nothing is written through [co]); every
    other call returns 0. *)
Theorem run_pid_fails_iff_not_ready (tstamp : N) (s : base_pid) (m : mem) :
  let '(r, s', m') := run_pid tstamp s m in
  (r = (-1)%Z <->
   pv s = nullptr \/ sp s = nullptr \/ co s = nullptr \/ dtmin s = 0%N) /\
  (r = (-1)%Z -> s' = s /\ m' = m) /\
  (r <> (-1)%Z -> r = 0%Z).
Proof.
  unfold run_pid.
  destruct (run_pid_at tstamp s m) as [[x s'] m'] eqn:E.
  assert (Hiff : result_of x = (-1)%Z <->
                 pv s = nullptr \/ sp s = nullptr \/ co s = nullptr \/
                 dtmin s = 0%N).
  { split.
    - intros Hr.
      destruct (pv s) eqn:Hpv; [ | now left ].
      destruct (sp s) eqn:Hsp; [ | now right; left ].
      destruct (co s) eqn:Hco; [ | now right; right; left ].
      destruct (N.eq_dec (dtmin s) 0) as [Hd | Hd]; [ now repeat right | ].
      assert (H0 : result_of (fst (fst (run_pid_at tstamp s m))) = 0%Z)
        by (apply run_pid_at_ready; unfold nullptr; congruence).
      rewrite E in H0. simpl in H0. congruence.
    - intros H. destruct (run_pid_at_failure tstamp s m H) as [Hx _].
      rewrite E in Hx. simpl in Hx. destruct Hx; subst x; reflexivity. }
  split; [ exact Hiff | split ].
  - intros Hr. apply Hiff in Hr.
    destruct (run_pid_at_failure tstamp s m Hr) as (_ & Hs & Hm).
    rewrite E in Hs, Hm. simpl in Hs, Hm. now split.
  - destruct x; simpl; congruence.
Qed.

(** The rate-limited path. *)
Lemma run_pid_at_rate_limited (tstamp : N) (s : base_pid) (m : mem)
    {ppv psp pco : addr} :
  pv s = Some ppv -> sp s = Some psp -> co s = Some pco ->
  (u64_sub tstamp (lts s) < dtmin s)%N ->
  run_pid_at tstamp s m =
  (ExitRateLimited, set_tmp_dt (u64_sub tstamp (lts s)) s,
   store m pco (tmp_co s)).
Proof.
  intros Hpv Hsp Hco Hlt. unfold run_pid_at. rewrite Hpv, Hsp, Hco.
  assert (Hd : (dtmin s =? 0)%N = false) by (apply N.eqb_neq; lia).
  rewrite Hd. simpl tmp_dt. simpl dtmin.
  apply N.ltb_lt in Hlt. now rewrite Hlt.
Qed.

(** The manual path. *)
Lemma run_pid_at_manual (tstamp : N) (s : base_pid) (m : mem)
    {ppv psp pco : addr} :
  pv s = Some ppv -> sp s = Some psp -> co s = Some pco ->
  dtmin s <> 0%N -> (dtmin s <= u64_sub tstamp (lts s))%N ->
  man_on s = true ->
  let v := clamp (coll s) (cohl s)
             (match tb s with None => F32.zero | Some ptb => load m ptb end) in
  run_pid_at tstamp s m =
  (ExitManual, set_lman_on true (set_tmp_co v (slice tstamp s)),
   store m pco v).
Proof.
  intros Hpv Hsp Hco Hd Hle Hman. unfold run_pid_at. rewrite Hpv, Hsp, Hco.
  apply N.eqb_neq in Hd. rewrite Hd. simpl tmp_dt. simpl dtmin.
  apply N.ltb_ge in Hle. rewrite Hle. simpl man_on. rewrite Hman.
  reflexivity.
Qed.

(** The automatic paths: the deadband gate, then the control law. *)
Lemma run_pid_at_auto (tstamp : N) (s : base_pid) (m : mem)
    {ppv psp pco : addr} :
  pv s = Some ppv -> sp s = Some psp -> co s = Some pco ->
  dtmin s <> 0%N -> (dtmin s <= u64_sub tstamp (lts s))%N ->
  man_on s = false ->
  let g := at_gate tstamp s m ppv psp in
  run_pid_at tstamp s m =
  if db_on s && F32.ltb (tmp_err g) (db s) then
    (ExitDeadband, set_lerr (tmp_err g) g, store m pco (tmp_co g))
  else
    let s' := final_clamp (process_Iterm (kick_and_Dterm g)) in
    (ExitLaw, s', store m pco (tmp_co s')).
Proof.
  intros Hpv Hsp Hco Hd Hle Hman. unfold run_pid_at. rewrite Hpv, Hsp, Hco.
  apply N.eqb_neq in Hd. rewrite Hd. simpl tmp_dt. simpl dtmin.
  apply N.ltb_ge in Hle. rewrite Hle. simpl man_on. rewrite Hman.
  fold (slice tstamp s). fold (at_gate tstamp s m ppv psp).
  assert (Hdb : db_on (at_gate tstamp s m ppv psp) = db_on s)
    by (unfold at_gate, bumpless, slice; simpl;
        destruct (lman_on s); reflexivity).
  assert (Hv : db (at_gate tstamp s m ppv psp) = db s)
    by (unfold at_gate, bumpless, slice; simpl;
        destruct (lman_on s); reflexivity).
  rewrite Hdb, Hv. reflexivity.
Qed.

(** What the exit label says about the guards. *)
Lemma run_pid_at_cases (tstamp : N) (s : base_pid) (m : mem) :
  (pv s = nullptr \/ sp s = nullptr \/ co s = nullptr \/ dtmin s = 0%N) \/
  exists ppv psp pco,
    pv s = Some ppv /\ sp s = Some psp /\ co s = Some pco /\
    dtmin s <> 0%N /\
    ((u64_sub tstamp (lts s) < dtmin s)%N \/
     (dtmin s <= u64_sub tstamp (lts s))%N /\ man_on s = true \/
     (dtmin s <= u64_sub tstamp (lts s))%N /\ man_on s = false).
Proof.
  destruct (pv s) as [ppv | ]; [ | left; now left ].
  destruct (sp s) as [psp | ]; [ | left; right; now left ].
  destruct (co s) as [pco | ]; [ | left; right; right; now left ].
  destruct (N.eq_dec (dtmin s) 0) as [Hd | Hd]; [ left; now repeat right | ].
  right. exists ppv, psp, pco. repeat split; auto.
  destruct (N.lt_ge_cases (u64_sub tstamp (lts s)) (dtmin s)); [ now left | ].
  right. destruct (man_on s); [ left | right ]; now split.
Qed.

(** A call that reaches the control law, gated or not, went through the
    automatic path. *)
Lemma effective_auto_inv (tstamp : N) (s : base_pid) (m : mem) :
  effective_auto (fst (fst (run_pid_at tstamp s m))) = true ->
  exists ppv psp pco,
    pv s = Some ppv /\ sp s = Some psp /\ co s = Some pco /\
    dtmin s <> 0%N /\ (dtmin s <= u64_sub tstamp (lts s))%N /\
    man_on s = false.
Proof.
  intros H.
  destruct (run_pid_at_cases tstamp s m)
    as [Hf | (ppv & psp & pco & Hpv & Hsp & Hco & Hd & Hc)].
  - destruct (run_pid_at_failure tstamp s m Hf) as [[Hx | Hx] _];
      rewrite Hx in H; discriminate.
  - destruct Hc as [Hlt | [[Hle Hman] | [Hle Hman]]].
    + rewrite (run_pid_at_rate_limited tstamp s m Hpv Hsp Hco Hlt) in H.
      discriminate.
    + rewrite (run_pid_at_manual tstamp s m Hpv Hsp Hco Hd Hle Hman) in H.
      discriminate.
    + exists ppv, psp, pco. auto 10.
Qed.

(** The members the integral step never assigns. *)
Lemma process_Iterm_keeps (s : base_pid) :
  coll (process_Iterm s) = coll s /\ cohl (process_Iterm s) = cohl s /\
  tmp_dt (process_Iterm s) = tmp_dt s /\ dtmin (process_Iterm s) = dtmin s /\
  lerr (process_Iterm s) = lerr s /\ lman_on (process_Iterm s) = lman_on s /\
  lts (process_Iterm s) = lts s.
Proof.
  unfold process_Iterm.
  destruct (F32.eqb (ki s) F32.zero); simpl; auto 10.
  case_if;
    simpl; auto 10.
Qed.

Lemma store_same (m : mem) (a : addr) (v : float) : store m a v a = v.
Proof. unfold store. now rewrite N.eqb_refl. Qed.

Lemma effective_auto_iff (tstamp : N) (s : base_pid) (m : mem) :
  effective_auto (fst (fst (run_pid_at tstamp s m))) = true <->
  exists ppv psp pco, auto_cycle tstamp s ppv psp pco.
Proof.
  split.
  - intros H. apply effective_auto_inv in H
      as (ppv & psp & pco & Hpv & Hsp & Hco & Hd & Hle & Hman).
    exists ppv, psp, pco. repeat split; assumption.
  - intros (ppv & psp & pco & (Hpv & Hsp & Hco & Hd) & Hle & Hman).
    rewrite (run_pid_at_auto tstamp s m Hpv Hsp Hco Hd Hle Hman).
    case_if;
      reflexivity.
Qed.

(** C8: when the elapsed time [tstamp - lts] (modulo 2^64) is below
    [dtmin], a call with its bindings set returns 0 and writes the stored
    [tmp_co] through [co]; only the scratch member [tmp_dt] is assigned,
    so [lts], [Iterm], [lerr], [lman_on] and [tmp_co] are as before, and
    a second call that is below [dtmin] too, whatever the cells hold by
    then, writes the same output. *)
Theorem rate_limited_call_replays_output (tstamp : N) (s : base_pid)
    (m : mem) (ppv psp pco : addr) :
  pv s = Some ppv -> sp s = Some psp -> co s = Some pco ->
  (u64_sub tstamp (lts s) < dtmin s)%N ->
  let '(r, s', m') := run_pid tstamp s m in
  r = 0%Z /\
  m' = store m pco (tmp_co s) /\ m' pco = tmp_co s /\
  s' = set_tmp_dt (u64_sub tstamp (lts s)) s /\
  lts s' = lts s /\ Iterm s' = Iterm s /\ lerr s' = lerr s /\
  lman_on s' = lman_on s /\ tmp_co s' = tmp_co s /\
  forall (tstamp2 : N) (m2 : mem),
    (u64_sub tstamp2 (lts s') < dtmin s')%N ->
    let '(r2, _, m2') := run_pid tstamp2 s' m2 in
    r2 = 0%Z /\ m2' pco = m' pco.
Proof.
  intros Hpv Hsp Hco Hlt. unfold run_pid.
  rewrite (run_pid_at_rate_limited tstamp s m Hpv Hsp Hco Hlt).
  simpl result_of. rewrite store_same.
  do 9 (split; [ reflexivity | ]).
  intros tstamp2 m2 Hlt2.
  rewrite (run_pid_at_rate_limited tstamp2 _ m2
             (ppv := ppv) (psp := psp) (pco := pco)) by assumption.
  simpl. now rewrite store_same.
Qed.

Lemma rate_limited_call_replays_output_witness :
  (u64_sub 1003 (lts (slice 1000 pid_auto)) < dtmin (slice 1000 pid_auto))%N /\
  fst (fst (run_pid 1003 (slice 1000 pid_auto) mem_step)) = 0%Z /\
  snd (run_pid 1003 (slice 1000 pid_auto) mem_step) 2%N =
  tmp_co (slice 1000 pid_auto).
Proof.
  assert (H : (u64_sub 1003 (lts (slice 1000 pid_auto))
               < dtmin (slice 1000 pid_auto))%N) by (vm_compute; reflexivity).
  split; [ exact H | ].
  pose proof (rate_limited_call_replays_output 1003 (slice 1000 pid_auto)
                mem_step 0%N 1%N 2%N eq_refl eq_refl eq_refl H) as T.
  destruct (run_pid 1003 (slice 1000 pid_auto) mem_step) as [[r s'] m'].
  destruct T as (Hr & _ & Hm & _). cbn [fst snd]. split; assumption.
Defined.

(** C7, as amended: in an effective automatic evaluation with the
    deadband enabled and the signed error [*sp - *pv] below [db], the
    call returns 0 without computing any of the three terms: it stores
    the error in [lerr], writes the previous [tmp_co] through [co] and
    keeps it.  [Iterm] is left as the bumpless switch, which comes
    before the gate, left it: unchanged when [lman_on] was off, set to
    [tmp_co] when [lman_on] was set. *)
Theorem deadband_gate_skips_the_law (tstamp : N) (s : base_pid) (m : mem)
    (ppv psp pco : addr) :
  auto_cycle tstamp s ppv psp pco ->
  db_on s = true ->
  F32.ltb (F32.sub (load m psp) (load m ppv)) (db s) = true ->
  let '(r, s', m') := run_pid tstamp s m in
  r = 0%Z /\
  s' = set_lerr (F32.sub (load m psp) (load m ppv))
         (at_gate tstamp s m ppv psp) /\
  lerr s' = F32.sub (load m psp) (load m ppv) /\
  m' = store m pco (tmp_co s) /\ m' pco = tmp_co s /\
  tmp_co s' = tmp_co s /\
  Iterm s' = (if lman_on s then tmp_co s else Iterm s) /\
  d_iterm s' = d_iterm s.
Proof.
  intros ((Hpv & Hsp & Hco & Hd) & Hle & Hman) Hon Hlt. unfold run_pid.
  rewrite (run_pid_at_auto tstamp s m Hpv Hsp Hco Hd Hle Hman).
  unfold at_gate at 1. simpl tmp_err. rewrite Hon, Hlt. simpl andb.
  simpl result_of.
  assert (Hco' : tmp_co (at_gate tstamp s m ppv psp) = tmp_co s)
    by (unfold at_gate, bumpless, slice; simpl;
        destruct (lman_on s); reflexivity).
  rewrite Hco', store_same.
  repeat split;
    unfold at_gate, bumpless, slice; simpl; destruct (lman_on s);
    reflexivity.
Qed.

Lemma deadband_gate_skips_the_law_witness :
  auto_cycle 20 pid_gated_after_manual 0%N 1%N 2%N /\
  db_on pid_gated_after_manual = true /\
  F32.ltb (F32.sub (load mem_after_manual 1%N) (load mem_after_manual 0%N))
          (db pid_gated_after_manual) = true /\
  lman_on pid_gated_after_manual = true /\
  Iterm pid_gated_after_manual = fz 0 /\
  fst (fst (run_pid 20 pid_gated_after_manual mem_after_manual)) = 0%Z /\
  Iterm (snd (fst (run_pid 20 pid_gated_after_manual mem_after_manual)))
  = fz 4 /\
  snd (run_pid 20 pid_gated_after_manual mem_after_manual) 2%N = fz 4.
Proof.
  assert (H1 : auto_cycle 20 pid_gated_after_manual 0%N 1%N 2%N).
  { repeat split; vm_compute; try reflexivity; discriminate. }
  assert (H2 : db_on pid_gated_after_manual = true)
    by (vm_compute; reflexivity).
  assert (H3 : F32.ltb (F32.sub (load mem_after_manual 1%N)
                                (load mem_after_manual 0%N))
                       (db pid_gated_after_manual) = true)
    by (vm_compute; reflexivity).
  do 3 (split; [ assumption | ]).
  split; [ vm_compute; reflexivity | ]. split; [ vm_compute; reflexivity | ].
  pose proof (deadband_gate_skips_the_law 20 pid_gated_after_manual
                mem_after_manual 0%N 1%N 2%N H1 H2 H3) as T.
  destruct (run_pid 20 pid_gated_after_manual mem_after_manual)
    as [[r s'] m'].
  destruct T as (Hr & _ & _ & _ & Hm & _ & HI & _). cbn [fst snd].
  split; [ exact Hr | ]. split; [ rewrite HI | rewrite Hm ];
    vm_compute; reflexivity.
Defined.

(** C7 as stated fails where it says that the integral term is left as
    it stands.  After a manual cycle with the tieback at 4 and the
    switch to automatic, [Iterm] is 0 and [tmp_co] is 4; the next
    effective automatic call is gated by the deadband (error 0 below
    the threshold 5), returns 0, and leaves [Iterm = 4]. *)
Lemma deadband_gated_call_changes_Iterm :
  let s := pid_gated_after_manual in
  let m := mem_after_manual in
  db_on s = true /\
  F32.ltb (F32.sub (load m 1%N) (load m 0%N)) (db s) = true /\
  fst (fst (run_pid_at 20 s m)) = ExitDeadband /\
  fst (fst (run_pid 20 s m)) = 0%Z /\
  Iterm s = fz 0 /\
  Iterm (snd (fst (run_pid 20 s m))) = fz 4 /\
  Iterm (snd (fst (run_pid 20 s m))) <> Iterm s.
Proof. vm_compute. repeat split. discriminate. Qed.

(** The state at the gate, member by member. *)
Lemma at_gate_fields (tstamp : N) (s : base_pid) (m : mem) (ppv psp : addr) :
  let g := at_gate tstamp s m ppv psp in
  tmp_err g = F32.sub (load m psp) (load m ppv) /\
  tmp_dt g = u64_sub tstamp (lts s) /\
  Iterm g = (if lman_on s then tmp_co s else Iterm s) /\
  tmp_co g = tmp_co s /\ lerr g = lerr s /\ lts g = tstamp /\
  lman_on g = false /\
  kp g = kp s /\ ki g = ki s /\ kd g = kd s /\
  coll g = coll s /\ cohl g = cohl s /\ dtmin g = dtmin s.
Proof.
  unfold at_gate, bumpless, slice. destruct (lman_on s) eqn:E; simpl;
    rewrite ?E; auto 20.
Qed.

(** The end of the control law, from the state [g] at the gate: the
    stored integral term and output are those of [integral_step_spec]
    run on the integral term and the running total of [g]. *)
Lemma law_outcome (g : base_pid) :
  let total :=
    F32.add (F32.mul (kp g) (tmp_err g))
            (F32.div (F32.mul (kd g) (F32.sub (tmp_err g) (lerr g)))
                     (F32.of_u64 (tmp_dt g))) in
  let r := integral_step_spec (ki g) (tmp_err g) (F32.of_u64 (tmp_dt g))
             (coll g) (cohl g) (Iterm g) total in
  let s' := final_clamp (process_Iterm (kick_and_Dterm g)) in
  Iterm s' = fst r /\ tmp_co s' = clamp (coll g) (cohl g) (snd r) /\
  lman_on s' = lman_on g.
Proof.
  unfold integral_step_spec, final_clamp, process_Iterm, kick_and_Dterm,
    windup.
  cbn [tmp_co tmp_err tmp_dt d_iterm Iterm lerr kp ki kd coll cohl lman_on
       set_tmp_co set_lerr set_d_iterm set_Iterm].
  destruct (F32.eqb (ki g) F32.zero).
  - cbn [fst snd tmp_co tmp_err tmp_dt d_iterm Iterm lerr kp ki kd coll cohl
         lman_on set_tmp_co set_lerr set_d_iterm set_Iterm].
    auto.
  - cbn [tmp_co tmp_err tmp_dt d_iterm Iterm lerr kp ki kd coll cohl lman_on
         set_tmp_co set_lerr set_d_iterm set_Iterm].
    match goal with
    | |- context [if (?a && ?b) || (?c && ?d) then _ else _] =>
        destruct ((a && b) || (c && d))
    end;
      cbn [negb fst snd tmp_co tmp_err tmp_dt d_iterm Iterm lerr kp ki kd
           coll cohl lman_on set_tmp_co set_lerr set_d_iterm set_Iterm];
      auto.
Qed.

(** A call made with [lman_on] set is the call made from the controller
    that already has [Iterm = tmp_co] and the flag off. *)
Lemma seeded_call (tstamp : N) (s : base_pid) (m : mem)
    (ppv psp pco : addr) :
  auto_cycle tstamp s ppv psp pco ->
  lman_on s = true ->
  run_pid_at tstamp s m =
  run_pid_at tstamp (set_Iterm (tmp_co s) (set_lman_on false s)) m.
Proof.
  intros ((Hpv & Hsp & Hco & Hd) & Hle & Hman) Hl.
  assert (Hg : at_gate tstamp (set_Iterm (tmp_co s) (set_lman_on false s))
                 m ppv psp = at_gate tstamp s m ppv psp)
    by (unfold at_gate, bumpless, slice; simpl; rewrite Hl; reflexivity).
  rewrite (run_pid_at_auto tstamp s m Hpv Hsp Hco Hd Hle Hman).
  rewrite (run_pid_at_auto tstamp _ m (ppv := ppv) (psp := psp)
             (pco := pco)) by assumption.
  rewrite Hg. cbn [db_on db set_Iterm set_lman_on]. reflexivity.
Qed.

(** C5: an effective automatic evaluation entered with [lman_on] set
    gives [Iterm] the value of [tmp_co] before the law is computed and
    clears the flag.  On the call itself: the flag is off afterwards; a
    call that the deadband gates ends with [Iterm = tmp_co], the last
    output; a call that runs the law computes the integral step
    ([integral_step_spec]) and the output from [tmp_co] as the existing
    integral term, whatever [Iterm] held; and the whole call is the one
    made from the already seeded controller. *)
Theorem bumpless_switch_seeds_Iterm (tstamp : N) (s : base_pid) (m : mem)
    (ppv psp pco : addr) :
  auto_cycle tstamp s ppv psp pco ->
  lman_on s = true ->
  let err := F32.sub (load m psp) (load m ppv) in
  let dt := F32.of_u64 (u64_sub tstamp (lts s)) in
  let total :=
    F32.add (F32.mul (kp s) err)
            (F32.div (F32.mul (kd s) (F32.sub err (lerr s))) dt) in
  let '(I', total') :=
    integral_step_spec (ki s) err dt (coll s) (cohl s) (tmp_co s) total in
  let '(x, s', m') := run_pid_at tstamp s m in
  lman_on s' = false /\
  (x = ExitDeadband \/ x = ExitLaw) /\
  (x = ExitDeadband -> Iterm s' = tmp_co s /\ tmp_co s' = tmp_co s) /\
  (x = ExitLaw ->
   Iterm s' = I' /\ tmp_co s' = clamp (coll s) (cohl s) total') /\
  m' pco = tmp_co s' /\
  run_pid tstamp s m =
  run_pid tstamp (set_Iterm (tmp_co s) (set_lman_on false s)) m.
Proof.
  intros A Hl. pose proof A as ((Hpv & Hsp & Hco & Hd) & Hle & Hman).
  cbv zeta.
  pose proof (seeded_call tstamp s m ppv psp pco A Hl) as Hseed.
  assert (Hrun : run_pid tstamp s m =
                 run_pid tstamp (set_Iterm (tmp_co s) (set_lman_on false s)) m)
    by (unfold run_pid; now rewrite Hseed).
  clear Hseed.
  destruct (at_gate_fields tstamp s m ppv psp)
    as (Herr & Hdt & HI & Hco0 & Hlerr & _ & Hlg & Hkp & Hki & Hkd & Hlo & Hhi
        & _).
  rewrite Hl in HI.
  pose proof (law_outcome (at_gate tstamp s m ppv psp)) as L.
  cbv zeta in L.
  rewrite Herr, Hdt, HI, Hlerr, Hkp, Hki, Hkd, Hlo, Hhi in L.
  destruct (integral_step_spec (ki s)
              (F32.sub (load m psp) (load m ppv))
              (F32.of_u64 (u64_sub tstamp (lts s))) (coll s) (cohl s)
              (tmp_co s) _) as [I' total'].
  cbn [fst snd] in L. destruct L as (LI & Lco & Ll).
  rewrite (run_pid_at_auto tstamp s m Hpv Hsp Hco Hd Hle Hman).
  set (g := at_gate tstamp s m ppv psp) in *.
  case_if; cbv beta iota zeta; rewrite store_same.
  - cbn [lman_on Iterm tmp_co set_lerr].
    split; [ exact Hlg | ]. split; [ now left | ].
    split; [ intros _; now split | ].
    split; [ intros H; discriminate H | ]. split; [ reflexivity | exact Hrun ].
  - split; [ now rewrite Ll | ]. split; [ now right | ].
    split; [ intros H; discriminate H | ].
    split; [ intros _; now split | ]. split; [ reflexivity | exact Hrun ].
Qed.

Lemma bumpless_switch_seeds_Iterm_witness :
  auto_cycle 20 pid_after_manual 0%N 1%N 2%N /\
  lman_on pid_after_manual = true /\
  Iterm pid_after_manual = fz 0 /\ tmp_co pid_after_manual = fz 4 /\
  fst (fst (run_pid_at 20 pid_after_manual mem_after_manual)) = ExitLaw /\
  Iterm (snd (fst (run_pid_at 20 pid_after_manual mem_after_manual))) = fz 4.
Proof.
  assert (H1 : auto_cycle 20 pid_after_manual 0%N 1%N 2%N).
  { repeat split; vm_compute; try reflexivity; discriminate. }
  assert (H2 : lman_on pid_after_manual = true) by (vm_compute; reflexivity).
  do 2 (split; [ assumption | ]).
  split; [ vm_compute; reflexivity | ]. split; [ vm_compute; reflexivity | ].
  assert (Hx : fst (fst (run_pid_at 20 pid_after_manual mem_after_manual))
               = ExitLaw) by (vm_compute; reflexivity).
  split; [ exact Hx | ].
  pose proof (bumpless_switch_seeds_Iterm 20 pid_after_manual
                mem_after_manual 0%N 1%N 2%N H1 H2) as T.
  cbv zeta in T.
  destruct (integral_step_spec _ _ _ _ _ _ _) as [I' total'] eqn:E in T.
  destruct (run_pid_at 20 pid_after_manual mem_after_manual)
    as [[x s'] m'].
  cbn [fst snd] in Hx |- *.
  destruct T as (_ & _ & _ & T & _). rewrite (proj1 (T Hx)).
  change I' with (fst (I', total')). rewrite <- E.
  vm_compute. reflexivity.
Defined.

(** C4: in an effective automatic evaluation that the deadband does not
    gate, the integral step is the one of the specification
    ([integral_step_spec]): with a zero [ki] the stored [Iterm] becomes 0;
    otherwise the existing [Iterm] (the one the bumpless switch left) is
    added to the running total [kp * err + kd * (err - lerr) / dt], and
    [delta = ki * err * dt] is added to both the total and [Iterm] unless
    the total is above [cohl] with a positive delta or below [coll] with
    a negative one, when [Iterm] stays.  The clamped total is the
    output. *)
Theorem integral_step_follows_spec (tstamp : N) (s : base_pid) (m : mem)
    (ppv psp pco : addr) :
  auto_cycle tstamp s ppv psp pco ->
  db_on s && F32.ltb (F32.sub (load m psp) (load m ppv)) (db s) = false ->
  let err := F32.sub (load m psp) (load m ppv) in
  let dt := F32.of_u64 (u64_sub tstamp (lts s)) in
  let I := if lman_on s then tmp_co s else Iterm s in
  let total :=
    F32.add (F32.mul (kp s) err)
            (F32.div (F32.mul (kd s) (F32.sub err (lerr s))) dt) in
  let '(I', total') :=
    integral_step_spec (ki s) err dt (coll s) (cohl s) I total in
  let '(r, s', m') := run_pid tstamp s m in
  r = 0%Z /\ Iterm s' = I' /\
  tmp_co s' = clamp (coll s) (cohl s) total' /\
  m' = store m pco (tmp_co s').
Proof.
  intros ((Hpv & Hsp & Hco & Hd) & Hle & Hman) Hgate. unfold run_pid.
  rewrite (run_pid_at_auto tstamp s m Hpv Hsp Hco Hd Hle Hman).
  destruct (at_gate_fields tstamp s m ppv psp)
    as (Herr & Hdt & HI & Hco0 & Hlerr & _ & _ & Hkp & Hki & Hkd & Hlo & Hhi
        & _).
  rewrite Herr, Hgate.
  set (g := at_gate tstamp s m ppv psp) in *.
  unfold integral_step_spec, final_clamp, process_Iterm, kick_and_Dterm,
    windup.
  cbn [tmp_co tmp_err tmp_dt d_iterm Iterm lerr kp ki kd coll cohl
       set_tmp_co set_lerr set_d_iterm set_Iterm].
  rewrite Herr, Hdt, HI, Hlerr, Hkp, Hki, Hkd, Hlo, Hhi.
  destruct (F32.eqb (ki s) F32.zero).
  - cbn [tmp_co tmp_err tmp_dt d_iterm Iterm lerr kp ki kd coll cohl
         set_tmp_co set_lerr set_d_iterm set_Iterm].
    rewrite Hlo, Hhi. repeat split; reflexivity.
  - cbn [tmp_co tmp_err tmp_dt d_iterm Iterm lerr kp ki kd coll cohl
         set_tmp_co set_lerr set_d_iterm set_Iterm].
    rewrite ?Herr, ?Hdt, ?HI, ?Hlerr, ?Hkp, ?Hki, ?Hkd, ?Hlo, ?Hhi.
    match goal with
    | |- context [if (?a && ?b) || (?c && ?d) then _ else _] =>
        destruct ((a && b) || (c && d))
    end;
      cbn [negb tmp_co tmp_err tmp_dt d_iterm Iterm lerr kp ki kd coll cohl
           set_tmp_co set_lerr set_d_iterm set_Iterm];
      rewrite ?Herr, ?Hdt, ?HI, ?Hlerr, ?Hkp, ?Hki, ?Hkd, ?Hlo, ?Hhi;
      repeat split; reflexivity.
Qed.

Lemma integral_step_follows_spec_witness :
  auto_cycle 1000 pid_auto 0%N 1%N 2%N /\
  db_on pid_auto &&
    F32.ltb (F32.sub (load mem_step 1%N) (load mem_step 0%N)) (db pid_auto)
  = false /\
  fst (fst (run_pid 1000 pid_auto mem_step)) = 0%Z.
Proof.
  assert (H1 : auto_cycle 1000 pid_auto 0%N 1%N 2%N).
  { repeat split; vm_compute; try reflexivity; discriminate. }
  assert (H2 : db_on pid_auto &&
               F32.ltb (F32.sub (load mem_step 1%N) (load mem_step 0%N))
                       (db pid_auto) = false) by (vm_compute; reflexivity).
  repeat (split; [ assumption | ]).
  pose proof (integral_step_follows_spec 1000 pid_auto mem_step
                0%N 1%N 2%N H1 H2) as T.
  vm_compute in T. vm_compute. exact (proj1 T).
Defined.

(** C9: a call that reaches the differential term (it leaves through
    the end of the control law) computes it in a state [g] where
    [tmp_dt], the elapsed time, is at least [dtmin], which is at least 1:
    the [dtmin == 0] test and the [tmp_dt < dtmin] return come first.
    The divisor [(float)tmp_dt] is then neither zero nor NaN. *)
Theorem Dterm_divisor_is_not_zero (tstamp : N) (s : base_pid) (m : mem) :
  fst (fst (run_pid_at tstamp s m)) = ExitLaw ->
  exists ppv psp,
    let g := at_gate tstamp s m ppv psp in
    snd (fst (run_pid_at tstamp s m)) =
    final_clamp (process_Iterm (kick_and_Dterm g)) /\
    tmp_dt g = u64_sub tstamp (lts s) /\ dtmin g = dtmin s /\
    (1 <= dtmin g)%N /\ (dtmin g <= tmp_dt g)%N /\
    F32.is_zero (F32.of_u64 (tmp_dt g)) = false /\
    F32.is_nan (F32.of_u64 (tmp_dt g)) = false.
Proof.
  intros Hx.
  assert (Ha : effective_auto (fst (fst (run_pid_at tstamp s m))) = true)
    by now rewrite Hx.
  apply effective_auto_inv in Ha
    as (ppv & psp & pco & Hpv & Hsp & Hco & Hd & Hle & Hman).
  exists ppv, psp.
  destruct (at_gate_fields tstamp s m ppv psp)
    as (_ & Hdt & _ & _ & _ & _ & _ & _ & _ & _ & _ & _ & Hmin).
  cbv zeta. rewrite Hdt, Hmin.
  rewrite (run_pid_at_auto tstamp s m Hpv Hsp Hco Hd Hle Hman) in Hx |- *.
  case_if; [ discriminate Hx | ].
  assert (Hnz : u64_sub tstamp (lts s) <> 0%N) by lia.
  destruct (of_u64_positive _ Hnz) as [Hz Hn].
  repeat split; try assumption; try reflexivity; lia.
Qed.

Lemma Dterm_divisor_is_not_zero_witness :
  fst (fst (run_pid_at 1000 pid_auto mem_step)) = ExitLaw /\
  exists ppv psp,
    (1 <= dtmin (at_gate 1000 pid_auto mem_step ppv psp))%N /\
    F32.is_zero
      (F32.of_u64 (tmp_dt (at_gate 1000 pid_auto mem_step ppv psp))) = false.
Proof.
  assert (H : fst (fst (run_pid_at 1000 pid_auto mem_step)) = ExitLaw)
    by (vm_compute; reflexivity).
  split; [ exact H | ].
  destruct (Dterm_divisor_is_not_zero 1000 pid_auto mem_step H)
    as (ppv & psp & _ & _ & _ & H1 & _ & Hz & _).
  exists ppv, psp. split; assumption.
Defined.

(** ** The output and the limits *)

(** What each exit does to [tmp_co] and to the cell behind [co]. *)
Lemma run_pid_at_output (tstamp : N) (s : base_pid) (m : mem) :
  let '(x, s', m') := run_pid_at tstamp s m in
  coll s' = coll s /\ cohl s' = cohl s /\
  match x with
  | ExitNoBinding | ExitZeroInterval => s' = s /\ m' = m
  | ExitRateLimited | ExitDeadband =>
      tmp_co s' = tmp_co s /\
      exists pco, co s = Some pco /\ m' = store m pco (tmp_co s')
  | ExitManual | ExitLaw =>
      (exists v, tmp_co s' = clamp (coll s) (cohl s) v) /\
      exists pco, co s = Some pco /\ m' = store m pco (tmp_co s')
  end.
Proof.
  destruct (run_pid_at_cases tstamp s m)
    as [Hf | (ppv & psp & pco & Hpv & Hsp & Hco & Hd & Hc)].
  - destruct (run_pid_at_failure tstamp s m Hf) as (Hx & Hs & Hm).
    destruct (run_pid_at tstamp s m) as [[x s'] m']. simpl in Hx, Hs, Hm.
    subst s' m'. destruct Hx; subst x; auto.
  - destruct Hc as [Hlt | [[Hle Hman] | [Hle Hman]]].
    + rewrite (run_pid_at_rate_limited tstamp s m Hpv Hsp Hco Hlt).
      repeat split. exists pco. now split.
    + rewrite (run_pid_at_manual tstamp s m Hpv Hsp Hco Hd Hle Hman).
      repeat split; [ eexists; reflexivity | ]. exists pco. now split.
    + rewrite (run_pid_at_auto tstamp s m Hpv Hsp Hco Hd Hle Hman).
      destruct (at_gate_fields tstamp s m ppv psp)
        as (_ & _ & _ & Hco0 & _ & _ & _ & _ & _ & _ & Hlo & Hhi & _).
      set (g := at_gate tstamp s m ppv psp) in *.
      case_if.
      * cbn [coll cohl tmp_co set_lerr]. rewrite Hlo, Hhi, Hco0.
        repeat split. exists pco. now split.
      * cbv zeta. unfold final_clamp.
        destruct (process_Iterm_keeps (kick_and_Dterm g))
          as (Hlo' & Hhi' & _).
        cbn [coll cohl tmp_co set_tmp_co]. rewrite Hlo', Hhi'.
        unfold kick_and_Dterm at 1 2 3 4. cbn [coll cohl set_tmp_co set_lerr].
        rewrite Hlo, Hhi. repeat split.
        -- eexists; reflexivity.
        -- exists pco. now split.
Qed.

(** C1, as amended: after a successful call made with [coll <= cohl],
    the stored [tmp_co] is a NaN or lies within [coll, cohl] when the
    call went through the manual branch or through the whole control
    law; a rate-limited or deadband-gated call leaves [tmp_co] as it
    was, so it lies within the limits if it did before the call.
    Nothing confines [Iterm] to the output limits. *)
Theorem last_output_clamped_or_kept (tstamp : N) (s : base_pid) (m : mem) :
  F32.leb (coll s) (cohl s) = true ->
  let '(x, s', _) := run_pid_at tstamp s m in
  result_of x = 0%Z ->
  (x = ExitManual \/ x = ExitLaw ->
   F32.is_nan (tmp_co s') = true \/
   within (coll s') (cohl s') (tmp_co s') = true) /\
  (x = ExitRateLimited \/ x = ExitDeadband -> tmp_co s' = tmp_co s) /\
  (within (coll s) (cohl s) (tmp_co s) = true ->
   F32.is_nan (tmp_co s') = true \/
   within (coll s') (cohl s') (tmp_co s') = true).
Proof.
  intros Hb. pose proof (run_pid_at_output tstamp s m) as H.
  destruct (run_pid_at tstamp s m) as [[x s'] m'].
  destruct H as (Hlo & Hhi & H). rewrite Hlo, Hhi. intros Hr.
  destruct x; try discriminate Hr.
  - destruct H as [H _]. rewrite H.
    repeat split; auto; intros [? | ?]; discriminate.
  - destruct H as [[v H] _]. rewrite H.
    pose proof (clamp_nan_or_within (coll s) (cohl s) v Hb) as Hc.
    repeat split; auto; intros [? | ?]; discriminate.
  - destruct H as [H _]. rewrite H.
    repeat split; auto; intros [? | ?]; discriminate.
  - destruct H as [[v H] _]. rewrite H.
    pose proof (clamp_nan_or_within (coll s) (cohl s) v Hb) as Hc.
    repeat split; auto; intros [? | ?]; discriminate.
Qed.

Lemma last_output_clamped_or_kept_witness :
  F32.leb (coll pid_integrating) (cohl pid_integrating) = true /\
  within (coll pid_integrating) (cohl pid_integrating)
    (tmp_co (snd (fst (run_pid_at 4000000 pid_integrating mem_step)))) = true.
Proof.
  assert (H : F32.leb (coll pid_integrating) (cohl pid_integrating) = true)
    by (vm_compute; reflexivity).
  split; [ exact H | ].
  pose proof (last_output_clamped_or_kept 4000000 pid_integrating mem_step H)
    as T.
  vm_compute in T. vm_compute.
  destruct (T eq_refl) as (T1 & _).
  destruct (T1 (or_intror eq_refl)) as [T2 | T2];
    [ discriminate T2 | exact T2 ].
Defined.

(** C1 as stated fails.  A first call on a controller just constructed
    with the limits [5, 10] is rate-limited and succeeds with
    [tmp_co = Iterm = 0], below the low limit; one automatic step of an
    integrating controller with the limits [-1, 1] leaves [Iterm = 4]
    beside a clamped [tmp_co = 1]; a NaN in the tieback cell is stored in
    [tmp_co] by a manual cycle. *)
Lemma stored_terms_outside_limits :
  (let '(r, s', _) := run_pid 0 pid_narrow mem_step in
   constructed pid_narrow /\
   F32.leb (coll pid_narrow) (cohl pid_narrow) = true /\ r = 0%Z /\
   tmp_co s' = fz 0 /\ Iterm s' = fz 0 /\
   within (coll s') (cohl s') (tmp_co s') = false /\
   within (coll s') (cohl s') (Iterm s') = false) /\
  (let '(r, s', _) := run_pid 4000000 pid_integrating mem_step in
   constructed pid_integrating /\
   F32.leb (coll pid_integrating) (cohl pid_integrating) = true /\
   r = 0%Z /\ tmp_co s' = fz 1 /\ Iterm s' = fz 4 /\
   within (coll s') (cohl s') (Iterm s') = false) /\
  (let '(r, s', _) := run_pid 10 pid_ki mem_tb_nan in
   constructed pid_ki /\
   F32.leb (coll pid_ki) (cohl pid_ki) = true /\ r = 0%Z /\
   tmp_co s' = S754_nan /\
   within (coll s') (cohl s') (tmp_co s') = false).
Proof.
  split; [ | split ].
  - assert (C : constructed pid_narrow) by (unfold pid_narrow; constructor).
    vm_compute. repeat split. exact C.
  - assert (C : constructed pid_integrating)
      by (unfold pid_integrating; constructor).
    vm_compute. repeat split. exact C.
  - assert (C : constructed pid_ki)
      by (unfold pid_ki, base_pid_gains; constructor).
    vm_compute. repeat split. exact C.
Qed.

(** C2, as amended: on a successful call made with [coll <= cohl] the
    value written through [co] is the stored [tmp_co]; it is a NaN or
    lies within [coll, cohl] on a manual cycle and at the end of the
    control law; on a rate-limited or deadband-gated cycle it is the
    previous [tmp_co], written as it is, within the limits if that was
    within them. *)
Theorem written_output_clamped_or_replayed (tstamp : N) (s : base_pid)
    (m : mem) (pco : addr) :
  co s = Some pco ->
  F32.leb (coll s) (cohl s) = true ->
  let '(x, s', m') := run_pid_at tstamp s m in
  result_of x = 0%Z ->
  m' pco = tmp_co s' /\
  (x = ExitManual \/ x = ExitLaw ->
   F32.is_nan (m' pco) = true \/ within (coll s) (cohl s) (m' pco) = true) /\
  (x = ExitRateLimited \/ x = ExitDeadband -> m' pco = tmp_co s) /\
  (within (coll s) (cohl s) (tmp_co s) = true ->
   F32.is_nan (m' pco) = true \/ within (coll s) (cohl s) (m' pco) = true).
Proof.
  intros Hco Hb. pose proof (run_pid_at_output tstamp s m) as H.
  destruct (run_pid_at tstamp s m) as [[x s'] m'].
  destruct H as (_ & _ & H). intros Hr.
  destruct x; try discriminate Hr.
  - destruct H as (H & pco' & Hco' & Hm).
    assert (pco' = pco) by congruence. subst pco' m'.
    rewrite store_same, H.
    repeat split; auto; intros [? | ?]; discriminate.
  - destruct H as ([v H] & pco' & Hco' & Hm).
    assert (pco' = pco) by congruence. subst pco' m'.
    rewrite store_same, H.
    pose proof (clamp_nan_or_within (coll s) (cohl s) v Hb) as Hc.
    repeat split; auto; intros [? | ?]; discriminate.
  - destruct H as (H & pco' & Hco' & Hm).
    assert (pco' = pco) by congruence. subst pco' m'.
    rewrite store_same, H.
    repeat split; auto; intros [? | ?]; discriminate.
  - destruct H as ([v H] & pco' & Hco' & Hm).
    assert (pco' = pco) by congruence. subst pco' m'.
    rewrite store_same, H.
    pose proof (clamp_nan_or_within (coll s) (cohl s) v Hb) as Hc.
    repeat split; auto; intros [? | ?]; discriminate.
Qed.

Lemma written_output_clamped_or_replayed_witness :
  co pid_narrow = Some 2%N /\
  F32.leb (coll pid_narrow) (cohl pid_narrow) = true /\
  snd (run_pid_at 10 pid_narrow mem_step) 2%N = fz 5.
Proof.
  assert (H1 : co pid_narrow = Some 2%N) by reflexivity.
  assert (H2 : F32.leb (coll pid_narrow) (cohl pid_narrow) = true)
    by (vm_compute; reflexivity).
  repeat (split; [ assumption | ]).
  pose proof (written_output_clamped_or_replayed 10 pid_narrow mem_step
                2%N H1 H2) as T.
  vm_compute in T. vm_compute.
  destruct (T eq_refl) as (T1 & _). exact T1.
Defined.

(** C2 as stated fails.  The first call on a controller just
    constructed with the limits [5, 10] is rate-limited and writes 0; a
    manual cycle writes the NaN it finds in the tieback cell. *)
Lemma written_output_outside_limits :
  (let '(r, _, m') := run_pid 0 pid_narrow mem_step in
   constructed pid_narrow /\ co pid_narrow = Some 2%N /\
   F32.leb (coll pid_narrow) (cohl pid_narrow) = true /\ r = 0%Z /\
   m' 2%N = fz 0 /\
   within (coll pid_narrow) (cohl pid_narrow) (m' 2%N) = false) /\
  (let '(r, _, m') := run_pid 10 pid_ki mem_tb_nan in
   constructed pid_ki /\ co pid_ki = Some 2%N /\
   F32.leb (coll pid_ki) (cohl pid_ki) = true /\ r = 0%Z /\
   m' 2%N = S754_nan /\
   within (coll pid_ki) (cohl pid_ki) (m' 2%N) = false).
Proof.
  split.
  - assert (C : constructed pid_narrow) by (unfold pid_narrow; constructor).
    vm_compute. repeat split. exact C.
  - assert (C : constructed pid_ki)
      by (unfold pid_ki, base_pid_gains; constructor).
    vm_compute. repeat split. exact C.
Qed.

(** C3, on the code: the last test of [set_gain_param] compares [kpv],
    not [kdv], with [__FLT_MAX__ * 1.0e-6].  With [kdv = 2^110], above
    that bound, and zero [kpv] and [kiv] the call returns 0 and stores
    [kd = +infinity]; with [kpv = 2^110], a finite float, and zero [kiv]
    and [kdv] it returns -1 and stores nothing. *)
Lemma set_gain_param_checks_kp_for_kd :
  let s := base_pid_default 0 F32.zero F32.zero in
  F32.leb f_2p110 F32.FLT_MAX = true /\
  F64.gtb (F64.of_f32 f_2p110) kd_bound = true /\
  fst (set_gain_param (fz 0) (fz 0) f_2p110 s) = 0%Z /\
  kd (snd (set_gain_param (fz 0) (fz 0) f_2p110 s)) = S754_infinity false /\
  set_gain_param f_2p110 (fz 0) (fz 0) s = ((-1)%Z, s).
Proof. vm_compute. repeat split. Qed.

(** ** From the construction to the first automatic evaluation *)

Lemma constructed_initial (s : base_pid) :
  constructed s ->
  lman_on s = true /\ tmp_co s = F32.zero /\ Iterm s = F32.zero /\
  lerr s = F32.zero /\ lts s = 0%N.
Proof. intros C. destruct C; simpl; auto. Qed.

(** No setter and no write of the caller touches the transient state. *)
Lemma exec_setter_keeps (c : call) (s : base_pid) (m : mem) :
  (forall tstamp, c <> Call_run_pid tstamp) ->
  lman_on (fst (exec c (s, m))) = lman_on s /\
  tmp_co (fst (exec c (s, m))) = tmp_co s.
Proof.
  intros Hc. destruct c; cbn [exec fst snd].
  - unfold set_pv_limits. destruct (F32.ltb hl ll); simpl; auto.
  - unfold set_sp_limits. destruct (F32.ltb hl ll); simpl; auto.
  - unfold set_cp_limits. destruct (F32.ltb hl ll); simpl; auto.
  - unfold set_gain_param. destruct (gain_rejected kpv kiv kdv); simpl; auto.
  - unfold set_db_param.
    case_if;
      simpl; auto.
  - unfold set_man_param. simpl; auto.
  - unfold set_dtmin_param.
    case_if;
      simpl; auto.
  - now elim (Hc tstamp).
  - auto.
Qed.

(** A call that does not reach the control law keeps a set [lman_on];
    a call that does not pass the time-slice test keeps [tmp_co]. *)
Lemma run_pid_at_keeps_transient (tstamp : N) (s : base_pid) (m : mem) :
  let '(x, s', _) := run_pid_at tstamp s m in
  (effective_auto x = false -> lman_on s = true -> lman_on s' = true) /\
  (effective x = false -> tmp_co s' = tmp_co s).
Proof.
  destruct (run_pid_at_cases tstamp s m)
    as [Hf | (ppv & psp & pco & Hpv & Hsp & Hco & Hd & Hc)].
  - destruct (run_pid_at_failure tstamp s m Hf) as (_ & Hs & _).
    destruct (run_pid_at tstamp s m) as [[x s'] m']. simpl in Hs.
    subst s'. auto.
  - destruct Hc as [Hlt | [[Hle Hman] | [Hle Hman]]].
    + rewrite (run_pid_at_rate_limited tstamp s m Hpv Hsp Hco Hlt).
      simpl; auto.
    + rewrite (run_pid_at_manual tstamp s m Hpv Hsp Hco Hd Hle Hman).
      simpl. split; [ auto | discriminate ].
    + rewrite (run_pid_at_auto tstamp s m Hpv Hsp Hco Hd Hle Hman).
      case_if;
        cbv zeta; simpl effective_auto; simpl effective;
        split; discriminate.
Qed.

Lemma session_keeps_lman_on (cs : list call) :
  forall (s : base_pid) (m : mem),
    no_auto_evaluation (exits cs (s, m)) = true ->
    lman_on s = true ->
    lman_on (fst (session cs (s, m))) = true.
Proof.
  unfold no_auto_evaluation, session.
  induction cs as [ | c cs IH]; intros s m Hx Hl; [ exact Hl | ].
  cbn [fold_left]. cbn [exits] in Hx.
  rewrite forallb_app in Hx. apply andb_prop in Hx as [Hc Hx].
  destruct (exec c (s, m)) as [s1 m1] eqn:E.
  apply IH; [ exact Hx | ].
  assert (E1 : lman_on (fst (exec c (s, m))) = lman_on s1) by now rewrite E.
  rewrite <- E1.
  pose proof (exec_setter_keeps c s m) as Hset.
  destruct c as [ ? ? | ? ? | ? ? | ? ? ? | ? ? | ? | ? | tstamp | ? ? ];
    try (rewrite (proj1 (Hset ltac:(intros ?; discriminate))); exact Hl).
  clear Hset.
  cbn [exec fst snd] in *.
  pose proof (run_pid_at_keeps_transient tstamp s m) as K.
  destruct (run_pid_at tstamp s m) as [[x s'] m'].
  cbn [fst snd forallb] in *. destruct K as [K _].
  apply K; [ | exact Hl ].
  now destruct (effective_auto x).
Qed.

Lemma session_keeps_tmp_co (cs : list call) :
  forall (s : base_pid) (m : mem),
    no_evaluation (exits cs (s, m)) = true ->
    tmp_co (fst (session cs (s, m))) = tmp_co s.
Proof.
  unfold no_evaluation, session.
  induction cs as [ | c cs IH]; intros s m Hx; [ reflexivity | ].
  cbn [fold_left]. cbn [exits] in Hx.
  rewrite forallb_app in Hx. apply andb_prop in Hx as [Hc Hx].
  destruct (exec c (s, m)) as [s1 m1] eqn:E.
  rewrite IH by exact Hx.
  assert (E1 : tmp_co (fst (exec c (s, m))) = tmp_co s1) by now rewrite E.
  rewrite <- E1.
  pose proof (exec_setter_keeps c s m) as Hset.
  destruct c as [ ? ? | ? ? | ? ? | ? ? ? | ? ? | ? | ? | tstamp | ? ? ];
    try (exact (proj2 (Hset ltac:(intros ?; discriminate)))).
  clear Hset.
  cbn [exec fst snd] in *.
  pose proof (run_pid_at_keeps_transient tstamp s m) as K.
  destruct (run_pid_at tstamp s m) as [[x s'] m'].
  cbn [fst snd forallb] in *. destruct K as [_ K].
  apply K. now destruct (effective x).
Qed.

(** What a call that does not reach the control law leaves in
    [tmp_co]: the clamped tieback after a manual cycle, the previous
    value otherwise. *)
Lemma run_pid_at_tmp_co_outside_law (tstamp : N) (s : base_pid) (m : mem) :
  let '(x, s', _) := run_pid_at tstamp s m in
  effective_auto x = false ->
  tmp_co s' = (if is_manual x then manual_output s m else tmp_co s).
Proof.
  destruct (run_pid_at_cases tstamp s m)
    as [Hf | (ppv & psp & pco & Hpv & Hsp & Hco & Hd & Hc)].
  - destruct (run_pid_at_failure tstamp s m Hf) as (Hx & Hs & _).
    destruct (run_pid_at tstamp s m) as [[x s'] m']. simpl in Hx, Hs.
    subst s'. destruct Hx; subst x; reflexivity.
  - destruct Hc as [Hlt | [[Hle Hman] | [Hle Hman]]].
    + rewrite (run_pid_at_rate_limited tstamp s m Hpv Hsp Hco Hlt).
      reflexivity.
    + rewrite (run_pid_at_manual tstamp s m Hpv Hsp Hco Hd Hle Hman).
      reflexivity.
    + rewrite (run_pid_at_auto tstamp s m Hpv Hsp Hco Hd Hle Hman).
      case_if; cbv beta iota zeta; discriminate.
Qed.

(** Until a call reaches the control law, [tmp_co] is the output of the
    last manual cycle of the session. *)
Lemma session_tmp_co_is_last_manual_output (cs : list call) :
  forall (s : base_pid) (m : mem),
    no_auto_evaluation (exits cs (s, m)) = true ->
    tmp_co (fst (session cs (s, m))) = seed_after cs (s, m) (tmp_co s).
Proof.
  unfold no_auto_evaluation, session.
  induction cs as [ | c cs IH]; intros s m Hx; [ reflexivity | ].
  cbn [fold_left seed_after]. cbn [exits] in Hx.
  rewrite forallb_app in Hx. apply andb_prop in Hx as [Hc Hx].
  pose proof (exec_setter_keeps c s m) as Hset.
  destruct (exec c (s, m)) as [s1 m1] eqn:E.
  rewrite (IH s1 m1 Hx). f_equal. cbn [fst snd] in *.
  destruct c as [ ? ? | ? ? | ? ? | ? ? ? | ? ? | ? | ? | tstamp | ? ? ];
    try (exact (proj2 (Hset ltac:(intros ?; discriminate)))).
  clear Hset. cbn [exec] in E.
  pose proof (run_pid_at_tmp_co_outside_law tstamp s m) as K.
  destruct (run_pid_at tstamp s m) as [[x s'] m'].
  cbn [fst snd forallb] in *. injection E as <- <-.
  apply K. now destruct (effective_auto x).
Qed.

(** C10, as amended: every constructor sets [lman_on], whatever the
    manual mode it is given, and the flag stays set until a call reaches
    the control law.  The first effective automatic evaluation after
    the construction therefore makes the bumpless switch: at the gate
    [Iterm] holds the stored [tmp_co] and the flag is off, and the call
    continues from that state.  The seed is the output of the last
    manual cycle of the session ([seed_after]: the tieback that cycle
    read, clamped to the limits of that moment), and the initial 0 when
    the session has no manual cycle, in particular when no call passed
    the time-slice test. *)
Theorem first_automatic_evaluation_is_seeded (s0 : base_pid) (m0 : mem)
    (cs : list call) (tstamp : N) (ppv psp pco : addr) :
  constructed s0 ->
  no_auto_evaluation (exits cs (s0, m0)) = true ->
  let s := fst (session cs (s0, m0)) in
  let m := snd (session cs (s0, m0)) in
  auto_cycle tstamp s ppv psp pco ->
  let g := at_gate tstamp s m ppv psp in
  lman_on s0 = true /\ lman_on s = true /\
  Iterm g = tmp_co s /\ tmp_co g = tmp_co s /\ lman_on g = false /\
  run_pid_at tstamp s m =
  (if db_on s && F32.ltb (tmp_err g) (db s) then
     (ExitDeadband, set_lerr (tmp_err g) g, store m pco (tmp_co g))
   else
     let s' := final_clamp (process_Iterm (kick_and_Dterm g)) in
     (ExitLaw, s', store m pco (tmp_co s'))) /\
  Iterm g = seed_after cs (s0, m0) F32.zero /\
  (no_evaluation (exits cs (s0, m0)) = true ->
   tmp_co s = F32.zero /\ Iterm g = F32.zero).
Proof.
  intros C Hx s m ((Hpv & Hsp & Hco & Hd) & Hle & Hman) g.
  destruct (constructed_initial s0 C) as (Hl0 & Hco0 & _).
  assert (Hl : lman_on s = true).
  { unfold s. destruct (session cs (s0, m0)) as [s1 m1] eqn:E.
    change s1 with (fst (s1, m1)). rewrite <- E.
    now apply session_keeps_lman_on. }
  destruct (at_gate_fields tstamp s m ppv psp)
    as (_ & _ & HI & Hcog & _ & _ & Hlg & _).
  fold g in HI, Hcog, Hlg. rewrite Hl in HI.
  split; [ exact Hl0 | ]. split; [ exact Hl | ].
  split; [ exact HI | ]. split; [ exact Hcog | ]. split; [ exact Hlg | ].
  split; [ | split ].
  - exact (run_pid_at_auto tstamp s m Hpv Hsp Hco Hd Hle Hman).
  - rewrite HI. unfold s.
    rewrite session_tmp_co_is_last_manual_output by exact Hx.
    now rewrite Hco0.
  - intros Hn.
    assert (Hz : tmp_co s = F32.zero).
    { unfold s. rewrite session_keeps_tmp_co by exact Hn. exact Hco0. }
    split; [ exact Hz | ]. now rewrite HI.
Qed.

Lemma first_automatic_evaluation_is_seeded_witness :
  constructed pid_ki /\
  no_auto_evaluation
    (exits [Call_run_pid 10; Call_set_man_param false] (pid_ki, mem_tb4))
  = true /\
  auto_cycle 20
    (fst (session [Call_run_pid 10; Call_set_man_param false]
            (pid_ki, mem_tb4))) 0%N 1%N 2%N /\
  lman_on
    (fst (session [Call_run_pid 10; Call_set_man_param false]
            (pid_ki, mem_tb4))) = true /\
  Iterm
    (at_gate 20
       (fst (session [Call_run_pid 10; Call_set_man_param false]
               (pid_ki, mem_tb4)))
       (snd (session [Call_run_pid 10; Call_set_man_param false]
               (pid_ki, mem_tb4))) 0%N 1%N)
  = manual_output pid_ki mem_tb4.
Proof.
  assert (C : constructed pid_ki)
    by (unfold pid_ki, base_pid_gains; constructor).
  assert (H1 : no_auto_evaluation
                 (exits [Call_run_pid 10; Call_set_man_param false]
                    (pid_ki, mem_tb4)) = true) by (vm_compute; reflexivity).
  assert (H2 : auto_cycle 20
                 (fst (session [Call_run_pid 10; Call_set_man_param false]
                         (pid_ki, mem_tb4))) 0%N 1%N 2%N).
  { repeat split; vm_compute; try reflexivity; discriminate. }
  do 3 (split; [ assumption | ]).
  pose proof (first_automatic_evaluation_is_seeded pid_ki mem_tb4
                [Call_run_pid 10; Call_set_man_param false] 20 0%N 1%N 2%N
                C H1 H2) as T.
  cbv zeta in T. destruct T as (_ & T1 & _ & _ & _ & _ & T2 & _).
  split; [ exact T1 | ]. rewrite T2. vm_compute. reflexivity.
Defined.

(** C10 as stated fails where it says that the seed is 0.  A controller
    constructed in manual mode runs one manual cycle with the tieback
    at 4 and is then switched to automatic: its first effective
    automatic evaluation seeds [Iterm] with 4, and with a zero error
    the integrator holds the output at 4. *)
Lemma first_automatic_evaluation_seeded_with_4 :
  let cs := [Call_run_pid 10; Call_set_man_param false] in
  let s := fst (session cs (pid_ki, mem_tb4)) in
  let m := snd (session cs (pid_ki, mem_tb4)) in
  constructed pid_ki /\
  exits cs (pid_ki, mem_tb4) = [ExitManual] /\
  no_auto_evaluation (exits cs (pid_ki, mem_tb4)) = true /\
  fst (fst (run_pid_at 20 s m)) = ExitLaw /\
  Iterm (at_gate 20 s m 0%N 1%N) = fz 4 /\
  Iterm (at_gate 20 s m 0%N 1%N) <> F32.zero /\
  Iterm (snd (fst (run_pid_at 20 s m))) = fz 4 /\
  snd (run_pid_at 20 s m) 2%N = fz 4.
Proof.
  assert (C : constructed pid_ki)
    by (unfold pid_ki, base_pid_gains; constructor).
  vm_compute. repeat split; try exact C. discriminate.
Qed.


(** * Further properties of the class *)

(** ** Order of floats, continued *)

Lemma leb_ltb_false (x y : float) :
  F32.leb x y = true -> F32.ltb y x = false.
Proof.
  unfold F32.leb, F32.ltb, SFleb, SFltb. rewrite (SFcompare_antisym x y).
  destruct (SFcompare x y) as [[ | | ] | ]; simpl; congruence.
Qed.

Lemma ltb_leb (x y : float) : F32.ltb x y = true -> F32.leb x y = true.
Proof.
  unfold F32.leb, F32.ltb, SFleb, SFltb.
  destruct (SFcompare x y) as [[ | | ] | ]; congruence.
Qed.

(** A value inside the limits goes through the clamp as it is. *)
Lemma clamp_fixes_within (lo hi x : float) :
  within lo hi x = true -> clamp lo hi x = x.
Proof.
  unfold within. intros H. apply andb_prop in H as [H1 H2].
  unfold clamp, F32.gtb.
  now rewrite (leb_ltb_false _ _ H1), (leb_ltb_false _ _ H2).
Qed.

(** ** Representable floats lie between [-FLT_MAX] and [FLT_MAX] *)

Lemma digits2_pos_gt (m : positive) :
  (Zpos m < 2 ^ Zpos (digits2_pos m))%Z.
Proof.
  induction m as [p IH | p IH | ]; simpl digits2_pos;
    rewrite ?Pos2Z.inj_succ, ?Z.pow_succ_r by lia; lia.
Qed.

Lemma representable_mantissa (s : bool) (m : positive) (e : Z) :
  representable (S754_finite s m e) = true ->
  (Zpos m <= 16777215)%Z /\ (e <= 104)%Z.
Proof.
  unfold representable, valid_binary, bounded, canonical_mantissa, fexp,
    F32.prec, F32.emax.
  intros H. apply andb_prop in H as [H1 H2].
  apply Z.eqb_eq in H1. apply Z.leb_le in H2.
  pose proof (digits2_pos_gt m) as Hd.
  assert (Hle : (Zpos (digits2_pos m) <= 24)%Z) by lia.
  assert (Hp : (2 ^ Zpos (digits2_pos m) <= 2 ^ 24)%Z)
    by (apply Z.pow_le_mono_r; lia).
  split; [ | lia ].
  assert (Hm : (Zpos m < 2 ^ 24)%Z) by (eapply Z.lt_le_trans; eassumption).
  change (2 ^ 24)%Z with 16777216%Z in Hm. clear - Hm. lia.
Qed.

Lemma representable_within_FLT_MAX (x : float) :
  representable x = true -> is_inf x = false -> F32.is_nan x = false ->
  within (F32.opp F32.FLT_MAX) F32.FLT_MAX x = true.
Proof.
  intros Hr Hi Hn.
  destruct x as [s | s | | s m e]; try discriminate.
  - destruct s; reflexivity.
  - apply representable_mantissa in Hr as [Hm He].
    unfold within, F32.leb, SFleb.
    change F32.FLT_MAX with (S754_finite false 16777215 104).
    change (F32.opp (S754_finite false 16777215 104))
      with (S754_finite true 16777215 104).
    destruct s; unfold SFcompare.
    + rewrite Pos.compare_cont_spec. unfold Pos.switch_Eq.
      destruct (104 ?= e)%Z eqn:E.
      * apply Z.compare_eq in E. subst e.
        destruct (16777215 ?= m)%positive eqn:Em; try reflexivity.
        rewrite Pos2Z.inj_compare in Em.
        change (16777215 < Z.pos m)%Z in Em. lia.
      * change (104 < e)%Z in E. lia.
      * reflexivity.
    + rewrite Pos.compare_cont_spec. unfold Pos.switch_Eq.
      destruct (e ?= 104)%Z eqn:E.
      * destruct (m ?= 16777215)%positive eqn:Em; try reflexivity.
        rewrite Pos2Z.inj_compare in Em.
        change (Z.pos m > 16777215)%Z in Em. lia.
      * reflexivity.
      * change (e > 104)%Z in E. lia.
Qed.

(** ** The clamp, continued *)

(** X9: with [lo <= hi] clamping twice is clamping once. *)
Theorem clamp_idempotent (lo hi x : float) :
  F32.leb lo hi = true ->
  clamp lo hi (clamp lo hi x) = clamp lo hi x.
Proof.
  intros Hb. destruct (F32.is_nan x) eqn:Hx.
  - rewrite (clamp_nan lo hi x Hx). exact (clamp_nan lo hi x Hx).
  - apply clamp_fixes_within. now apply clamp_within.
Qed.

Lemma clamp_idempotent_witness :
  F32.leb (fz 5) (fz 10) = true /\
  clamp (fz 5) (fz 10) (clamp (fz 5) (fz 10) (fz 12)) =
  clamp (fz 5) (fz 10) (fz 12).
Proof.
  assert (H : F32.leb (fz 5) (fz 10) = true) by (vm_compute; reflexivity).
  split; [ exact H | exact (clamp_idempotent (fz 5) (fz 10) (fz 12) H) ].
Defined.


(** ** What [run_pid] leaves alone *)

Lemma same_config_refl (s : base_pid) : same_config s s.
Proof. unfold same_config. auto 20. Qed.

Lemma same_config_trans (s1 s2 s3 : base_pid) :
  same_config s1 s2 -> same_config s2 s3 -> same_config s1 s3.
Proof.
  unfold same_config.
  intros (A1 & A2 & A3 & A4 & A5 & A6 & A7 & A8 & A9 & A10 & A11 & A12 & A13
          & A14 & A15 & A16 & A17)
         (B1 & B2 & B3 & B4 & B5 & B6 & B7 & B8 & B9 & B10 & B11 & B12 & B13
          & B14 & B15 & B16 & B17).
  rewrite B1, B2, B3, B4, B5, B6, B7, B8, B9, B10, B11, B12, B13, B14, B15,
    B16, B17.
  auto 20.
Qed.

Lemma bumpless_same_config (s : base_pid) : same_config s (bumpless s).
Proof.
  unfold bumpless, same_config. destruct (lman_on s); simpl; auto 20.
Qed.

Lemma kick_and_Dterm_same_config (s : base_pid) :
  same_config s (kick_and_Dterm s).
Proof. unfold kick_and_Dterm, same_config. simpl. auto 20. Qed.

Lemma process_Iterm_same_config (s : base_pid) :
  same_config s (process_Iterm s).
Proof.
  unfold process_Iterm, same_config.
  destruct (F32.eqb (ki s) F32.zero); simpl; auto 20.
  case_if; simpl; auto 20.
Qed.

Lemma at_gate_same_config (tstamp : N) (s : base_pid) (m : mem)
    (ppv psp : addr) :
  same_config s (at_gate tstamp s m ppv psp).
Proof.
  unfold at_gate, slice.
  apply same_config_trans with (s2 := set_lts tstamp
                                        (set_tmp_dt (u64_sub tstamp (lts s)) s)).
  - unfold same_config. simpl. auto 20.
  - eapply same_config_trans; [ apply bumpless_same_config | ].
    unfold same_config. simpl. auto 20.
Qed.

Lemma run_pid_at_same_config (tstamp : N) (s : base_pid) (m : mem) :
  same_config s (snd (fst (run_pid_at tstamp s m))).
Proof.
  destruct (run_pid_at_cases tstamp s m)
    as [Hf | (ppv & psp & pco & Hpv & Hsp & Hco & Hd & Hc)].
  - destruct (run_pid_at_failure tstamp s m Hf) as (_ & Hs & _).
    destruct (run_pid_at tstamp s m) as [[x s'] m']. simpl in Hs |- *.
    subst s'. apply same_config_refl.
  - destruct Hc as [Hlt | [[Hle Hman] | [Hle Hman]]].
    + rewrite (run_pid_at_rate_limited tstamp s m Hpv Hsp Hco Hlt).
      unfold same_config. simpl. auto 20.
    + rewrite (run_pid_at_manual tstamp s m Hpv Hsp Hco Hd Hle Hman).
      unfold same_config, slice. simpl. auto 20.
    + rewrite (run_pid_at_auto tstamp s m Hpv Hsp Hco Hd Hle Hman).
      pose proof (at_gate_same_config tstamp s m ppv psp) as Hg.
      set (g := at_gate tstamp s m ppv psp) in *.
      case_if; cbv zeta; cbn [fst snd].
      * eapply same_config_trans; [ exact Hg | ].
        unfold same_config. simpl. auto 20.
      * eapply same_config_trans; [ exact Hg | ].
        eapply same_config_trans; [ apply kick_and_Dterm_same_config | ].
        eapply same_config_trans; [ apply process_Iterm_same_config | ].
        unfold final_clamp, same_config. simpl. auto 20.
Qed.

(** X6: a call of [run_pid], successful or not, assigns none of the
    bindings, gains, deadband settings, limits, [dtmin] and mode
    flags. *)
Theorem run_pid_keeps_the_configuration (tstamp : N) (s : base_pid)
    (m : mem) :
  same_config s (snd (fst (run_pid tstamp s m))).
Proof.
  unfold run_pid.
  pose proof (run_pid_at_same_config tstamp s m) as H.
  destruct (run_pid_at tstamp s m) as [[x s'] m']. exact H.
Qed.

Lemma store_other (m : mem) (a b : addr) (v : float) :
  b <> a -> store m a v b = m b.
Proof.
  intros H. unfold store. apply N.eqb_neq in H. now rewrite H.
Qed.

(** X7: the only cell a call of [run_pid] can change is the one behind
    [co]; a failing call changes none. *)
Theorem run_pid_writes_only_co (tstamp : N) (s : base_pid) (m : mem)
    (a : addr) :
  co s <> Some a ->
  snd (run_pid tstamp s m) a = m a.
Proof.
  intros Ha. unfold run_pid.
  pose proof (run_pid_at_output tstamp s m) as H.
  destruct (run_pid_at tstamp s m) as [[x s'] m'].
  destruct H as (_ & _ & H). cbn [snd].
  destruct x;
    try (destruct H as [_ ->]; reflexivity);
    destruct H as (_ & pco & Hco & ->);
    apply store_other; congruence.
Qed.

Lemma run_pid_writes_only_co_witness :
  co pid_auto <> Some 0%N /\
  snd (run_pid 1000 pid_auto mem_step) 0%N = mem_step 0%N.
Proof.
  assert (H : co pid_auto <> Some 0%N) by (vm_compute; discriminate).
  split; [ exact H | ].
  exact (run_pid_writes_only_co 1000 pid_auto mem_step 0%N H).
Defined.

(** ** Manual cycles *)

(** X8: an effective cycle in manual mode returns 0 and writes the
    tieback value, or 0 without a tieback binding, clamped to the output
    limits, whatever the gains, the setpoint and the process variable;
    a tieback value inside the limits is written as it is.  The cycle
    records the timestamp and the manual mode and leaves [Iterm] and
    [lerr] alone. *)
Theorem manual_cycle_passes_the_tieback (tstamp : N) (s : base_pid)
    (m : mem) (ppv psp pco : addr) :
  ready s ppv psp pco ->
  (dtmin s <= u64_sub tstamp (lts s))%N ->
  man_on s = true ->
  let tie := match tb s with None => F32.zero | Some ptb => load m ptb end in
  let '(r, s', m') := run_pid tstamp s m in
  r = 0%Z /\
  m' pco = clamp (coll s) (cohl s) tie /\
  tmp_co s' = clamp (coll s) (cohl s) tie /\
  (within (coll s) (cohl s) tie = true -> m' pco = tie) /\
  lts s' = tstamp /\ lman_on s' = true /\
  Iterm s' = Iterm s /\ lerr s' = lerr s.
Proof.
  intros (Hpv & Hsp & Hco & Hd) Hle Hman. unfold run_pid.
  rewrite (run_pid_at_manual tstamp s m Hpv Hsp Hco Hd Hle Hman).
  cbv zeta. cbn [result_of]. rewrite store_same.
  split; [ reflexivity | ]. split; [ reflexivity | ].
  split; [ reflexivity | ].
  split; [ intros Hw; now apply clamp_fixes_within | ].
  unfold slice. simpl. auto.
Qed.

Lemma manual_cycle_passes_the_tieback_witness :
  ready pid_simple 0%N 1%N 2%N /\
  (dtmin pid_simple <= u64_sub 10 (lts pid_simple))%N /\
  man_on pid_simple = true /\
  snd (run_pid 10 pid_simple mem_tb4) 2%N = fz 4.
Proof.
  assert (H1 : ready pid_simple 0%N 1%N 2%N).
  { repeat split; vm_compute; try reflexivity; discriminate. }
  assert (H2 : (dtmin pid_simple <= u64_sub 10 (lts pid_simple))%N)
    by (vm_compute; discriminate).
  assert (H3 : man_on pid_simple = true) by reflexivity.
  repeat (split; [ assumption | ]).
  pose proof (manual_cycle_passes_the_tieback 10 pid_simple mem_tb4
                0%N 1%N 2%N H1 H2 H3) as T.
  destruct (run_pid 10 pid_simple mem_tb4) as [[r s'] m'].
  destruct T as (_ & _ & _ & T & _). cbn [snd].
  apply T. vm_compute. reflexivity.
Defined.

(** ** Automatic cycles *)

Lemma kick_and_Dterm_fields (s : base_pid) :
  lerr (kick_and_Dterm s) = tmp_err s /\ lts (kick_and_Dterm s) = lts s /\
  lman_on (kick_and_Dterm s) = lman_on s /\
  tmp_err (kick_and_Dterm s) = tmp_err s.
Proof. unfold kick_and_Dterm. simpl. auto. Qed.

(** X10: after an effective automatic cycle, gated by the deadband or
    not, [lerr] holds the error [*sp - *pv] of this cycle, [lts] the
    timestamp of the call, and [lman_on] is off. *)
Theorem auto_cycle_records_error_and_time (tstamp : N) (s : base_pid)
    (m : mem) (ppv psp pco : addr) :
  auto_cycle tstamp s ppv psp pco ->
  let '(r, s', _) := run_pid tstamp s m in
  r = 0%Z /\
  lerr s' = F32.sub (load m psp) (load m ppv) /\
  lts s' = tstamp /\ lman_on s' = false.
Proof.
  intros ((Hpv & Hsp & Hco & Hd) & Hle & Hman). unfold run_pid.
  rewrite (run_pid_at_auto tstamp s m Hpv Hsp Hco Hd Hle Hman).
  destruct (at_gate_fields tstamp s m ppv psp)
    as (Herr & _ & _ & _ & _ & Hlts & Hl & _).
  set (g := at_gate tstamp s m ppv psp) in *.
  case_if; cbv zeta; cbn [result_of].
  - rewrite <- Herr. cbn [lerr lts lman_on set_lerr]. auto.
  - destruct (process_Iterm_keeps (kick_and_Dterm g))
      as (_ & _ & _ & _ & He & Hm & Ht).
    destruct (kick_and_Dterm_fields g) as (Ke & Kt & Km & _).
    unfold final_clamp. cbn [lerr lts lman_on set_tmp_co].
    rewrite He, Hm, Ht, Ke, Kt, Km, Herr. auto.
Qed.

Lemma auto_cycle_records_error_and_time_witness :
  auto_cycle 1000 pid_auto 0%N 1%N 2%N /\
  lerr (snd (fst (run_pid 1000 pid_auto mem_step))) = fz 1.
Proof.
  assert (H1 : auto_cycle 1000 pid_auto 0%N 1%N 2%N).
  { repeat split; vm_compute; try reflexivity; discriminate. }
  split; [ exact H1 | ].
  pose proof (auto_cycle_records_error_and_time 1000 pid_auto mem_step
                0%N 1%N 2%N H1) as T.
  destruct (run_pid 1000 pid_auto mem_step) as [[r s'] m'].
  destruct T as (_ & T & _). cbn [fst snd]. rewrite T.
  vm_compute. reflexivity.
Defined.

(** ** Timestamps *)

Lemma u64_sub_diag (n : N) : u64_sub n n = 0%N.
Proof. unfold u64_sub. now rewrite Z.sub_diag. Qed.

Lemma u64_sub_ordered (a b : N) :
  (b <= a)%N -> (a < 2 ^ 64)%N -> u64_sub a b = (a - b)%N.
Proof.
  intros Hle Hlt. unfold u64_sub, two64.
  assert (H64 : (Z.of_N a < 2 ^ 64)%Z)
    by (change (2 ^ 64)%Z with (Z.of_N (2 ^ 64)); lia).
  rewrite Z.mod_small by lia. lia.
Qed.

(** Where [lts] stands after a call that passed the precondition
    checks. *)
Lemma run_pid_at_lts (tstamp : N) (s : base_pid) (m : mem)
    (ppv psp pco : addr) :
  ready s ppv psp pco ->
  let '(x, s', _) := run_pid_at tstamp s m in
  (x = ExitRateLimited /\ lts s' = lts s /\
   (u64_sub tstamp (lts s) < dtmin s)%N) \/
  (effective x = true /\ lts s' = tstamp /\
   (dtmin s <= u64_sub tstamp (lts s))%N).
Proof.
  intros (Hpv & Hsp & Hco & Hd).
  destruct (N.lt_ge_cases (u64_sub tstamp (lts s)) (dtmin s)) as [Hlt | Hle].
  - rewrite (run_pid_at_rate_limited tstamp s m Hpv Hsp Hco Hlt).
    cbv beta iota zeta. left. simpl. auto.
  - destruct (man_on s) eqn:Hman.
    + rewrite (run_pid_at_manual tstamp s m Hpv Hsp Hco Hd Hle Hman).
      cbv beta iota zeta. right. unfold slice. simpl. auto.
    + rewrite (run_pid_at_auto tstamp s m Hpv Hsp Hco Hd Hle Hman).
      destruct (at_gate_fields tstamp s m ppv psp)
        as (_ & _ & _ & _ & _ & Hlts & _).
      set (g := at_gate tstamp s m ppv psp) in *.
      case_if; cbv beta iota zeta.
      * right. cbn [lts set_lerr effective]. auto.
      * destruct (process_Iterm_keeps (kick_and_Dterm g))
          as (_ & _ & _ & _ & _ & _ & Ht).
        destruct (kick_and_Dterm_fields g) as (_ & Kt & _).
        right. unfold final_clamp. cbn [lts set_tmp_co effective].
        rewrite Ht, Kt, Hlts. auto.
Qed.

(** X11: a second call with the timestamp of the call before it is
    rate-limited, whatever the cells hold by then: it writes again the
    output of the first call and keeps [tmp_co]. *)
Theorem repeated_timestamp_replays (tstamp : N) (s : base_pid)
    (m m2 : mem) (ppv psp pco : addr) :
  ready s ppv psp pco ->
  let '(_, s1, m1) := run_pid_at tstamp s m in
  let '(x2, s2, m2') := run_pid_at tstamp s1 m2 in
  x2 = ExitRateLimited /\ m2' pco = m1 pco /\ tmp_co s2 = tmp_co s1.
Proof.
  intros R. pose proof R as (Hpv & Hsp & Hco & Hd).
  pose proof (run_pid_at_lts tstamp s m ppv psp pco R) as L.
  pose proof (run_pid_at_same_config tstamp s m) as K.
  pose proof (run_pid_at_output tstamp s m) as O.
  destruct (run_pid_at tstamp s m) as [[x1 s1] m1]. cbn [fst snd] in K.
  destruct K as (Kpv & Ksp & _ & Kco & _ & _ & _ & _ & _ & _ & _ & _ & _ & _
                 & Kd & _).
  assert (Hlt : (u64_sub tstamp (lts s1) < dtmin s1)%N).
  { rewrite Kd. destruct L as [(_ & -> & Hlt) | (_ & -> & _)];
      [ exact Hlt | rewrite u64_sub_diag; lia ]. }
  assert (Hm1 : m1 pco = tmp_co s1).
  { destruct O as (_ & _ & O).
    destruct L as [(-> & _) | (He & _)].
    - destruct O as (_ & pco' & Hco' & ->).
      assert (pco' = pco) by congruence. subst pco'. apply store_same.
    - destruct x1; try discriminate He;
        destruct O as (_ & pco' & Hco' & ->);
        assert (pco' = pco) by congruence; subst pco'; apply store_same. }
  rewrite (run_pid_at_rate_limited tstamp s1 m2
             (ppv := ppv) (psp := psp) (pco := pco))
    by congruence.
  rewrite store_same, Hm1. cbn [tmp_co set_tmp_dt]. auto.
Qed.

Lemma repeated_timestamp_replays_witness :
  ready pid_auto 0%N 1%N 2%N /\
  fst (fst (run_pid_at 1000
              (snd (fst (run_pid_at 1000 pid_auto mem_step))) mem_tb4))
  = ExitRateLimited.
Proof.
  assert (H1 : ready pid_auto 0%N 1%N 2%N).
  { repeat split; vm_compute; try reflexivity; discriminate. }
  split; [ exact H1 | ].
  pose proof (repeated_timestamp_replays 1000 pid_auto mem_step mem_tb4
                0%N 1%N 2%N H1) as T.
  destruct (run_pid_at 1000 pid_auto mem_step) as [[x1 s1] m1].
  cbn [fst snd].
  destruct (run_pid_at 1000 s1 mem_tb4) as [[x2 s2] m2'].
  exact (proj1 T).
Defined.

(** X12: with timestamps that do not go back ([lts <= tstamp], both
    below 2^64) the elapsed time is the plain difference, and a call
    that passes the precondition checks is rate-limited exactly when
    [tstamp - lts < dtmin]. *)
Theorem rate_limited_iff_slice_not_elapsed (tstamp : N) (s : base_pid)
    (m : mem) (ppv psp pco : addr) :
  ready s ppv psp pco ->
  (lts s <= tstamp)%N -> (tstamp < 2 ^ 64)%N ->
  u64_sub tstamp (lts s) = (tstamp - lts s)%N /\
  (fst (fst (run_pid_at tstamp s m)) = ExitRateLimited <->
   (tstamp - lts s < dtmin s)%N).
Proof.
  intros R Hle Hlt.
  pose proof (u64_sub_ordered tstamp (lts s) Hle Hlt) as Hu.
  split; [ exact Hu | ].
  pose proof (run_pid_at_lts tstamp s m ppv psp pco R) as L.
  destruct (run_pid_at tstamp s m) as [[x s'] m']. cbn [fst].
  rewrite <- Hu.
  destruct L as [(-> & _ & H) | (He & _ & H)].
  - split; auto.
  - split; [ intros ->; discriminate He | lia ].
Qed.

Lemma rate_limited_iff_slice_not_elapsed_witness :
  ready pid_auto 0%N 1%N 2%N /\
  (lts pid_auto <= 7)%N /\ (7 < 2 ^ 64)%N /\
  fst (fst (run_pid_at 7 pid_auto mem_step)) = ExitRateLimited.
Proof.
  assert (H1 : ready pid_auto 0%N 1%N 2%N).
  { repeat split; vm_compute; try reflexivity; discriminate. }
  assert (H2 : (lts pid_auto <= 7)%N) by (vm_compute; discriminate).
  assert (H3 : (7 < 2 ^ 64)%N) by (vm_compute; reflexivity).
  repeat (split; [ assumption | ]).
  apply (proj2 (rate_limited_iff_slice_not_elapsed 7 pid_auto mem_step
                  0%N 1%N 2%N H1 H2 H3)).
  vm_compute. reflexivity.
Defined.

(** ** The setters *)

(** Storing a pair the way the three limit setters do: swapped when
    [hl < ll]. *)
Lemma ordered_pair (ll hl : float) :
  F32.is_nan ll = false -> F32.is_nan hl = false ->
  F32.leb (if F32.ltb hl ll then hl else ll)
          (if F32.ltb hl ll then ll else hl) = true.
Proof.
  intros Hl Hh. destruct (F32.ltb hl ll) eqn:E.
  - now apply ltb_leb.
  - now apply ltb_false_leb.
Qed.

(** X1: each of the three limit setters returns -1 exactly when
    [hl < ll] and 0 otherwise, and stores the two values in ascending
    order either way: unless one of them is a NaN, the stored low limit
    is at most the stored high limit. *)
Theorem limit_setters_store_an_ordered_pair (ll hl : float) (s : base_pid) :
  F32.is_nan ll = false -> F32.is_nan hl = false ->
  let lo := if F32.ltb hl ll then hl else ll in
  let hi := if F32.ltb hl ll then ll else hl in
  let r := if F32.ltb hl ll then (-1)%Z else 0%Z in
  F32.leb lo hi = true /\
  (fst (set_pv_limits ll hl s) = r /\
   get_pv_limits (snd (set_pv_limits ll hl s)) = (lo, hi)) /\
  (fst (set_sp_limits ll hl s) = r /\
   get_sp_limits (snd (set_sp_limits ll hl s)) = (lo, hi)) /\
  (fst (set_cp_limits ll hl s) = r /\
   get_co_limits (snd (set_cp_limits ll hl s)) = (lo, hi)).
Proof.
  intros Hl Hh. split; [ now apply ordered_pair | ].
  unfold set_pv_limits, set_sp_limits, set_cp_limits,
    get_pv_limits, get_sp_limits, get_co_limits.
  destruct (F32.ltb hl ll); simpl; auto 10.
Qed.

Lemma limit_setters_store_an_ordered_pair_witness :
  F32.is_nan (fz 10) = false /\ F32.is_nan (fz 5) = false /\
  fst (set_cp_limits (fz 10) (fz 5) pid_auto) = (-1)%Z /\
  get_co_limits (snd (set_cp_limits (fz 10) (fz 5) pid_auto)) = (fz 5, fz 10).
Proof.
  split; [ reflexivity | ]. split; [ reflexivity | ].
  destruct (limit_setters_store_an_ordered_pair (fz 10) (fz 5) pid_auto
              eq_refl eq_refl) as (_ & _ & _ & T1 & T2).
  split; [ rewrite T1 | rewrite T2 ]; vm_compute; reflexivity.
Defined.

(** X2: [set_dtmin_param] never leaves a zero time slice: it returns -1
    and stores 1 for the argument 0, returns 0 and stores the argument
    otherwise; after it a controller with its three bindings is never
    refused by [run_pid]. *)
Theorem set_dtmin_param_floors_at_one (dtminv : N) (s : base_pid) (m : mem)
    (tstamp : N) :
  let '(r, s') := set_dtmin_param dtminv s in
  get_dtmin_param s' <> 0%N /\
  (dtminv = 0%N -> r = (-1)%Z /\ get_dtmin_param s' = 1%N) /\
  (dtminv <> 0%N -> r = 0%Z /\ get_dtmin_param s' = dtminv) /\
  (pv s <> nullptr -> sp s <> nullptr -> co s <> nullptr ->
   fst (fst (run_pid tstamp s' m)) = 0%Z).
Proof.
  unfold set_dtmin_param, get_dtmin_param. cbn [dtmin set_dtmin].
  destruct (dtminv =? 0)%N eqn:E.
  - apply N.eqb_eq in E. subst dtminv. cbn [dtmin set_dtmin].
    split; [ discriminate | ]. split; [ auto | ].
    split; [ congruence | ].
    intros Hpv Hsp Hco. unfold run_pid.
    pose proof (run_pid_at_ready tstamp
                  (set_dtmin (u64_incr 0) (set_dtmin 0 s)) m
                  Hpv Hsp Hco ltac:(discriminate)) as H.
    destruct (run_pid_at tstamp _ m) as [[x s'] m']. exact H.
  - apply N.eqb_neq in E. cbn [dtmin set_dtmin].
    split; [ exact E | ]. split; [ congruence | ]. split; [ auto | ].
    intros Hpv Hsp Hco. unfold run_pid.
    pose proof (run_pid_at_ready tstamp (set_dtmin dtminv s) m
                  Hpv Hsp Hco E) as H.
    destruct (run_pid_at tstamp _ m) as [[x s'] m']. exact H.
Qed.

(** X3: for a value that binary32 can hold, [set_db_param] returns -1
    exactly when the value is an infinity, and then changes nothing;
    every finite value and a NaN are stored, with the switch, and the
    call returns 0. *)
Theorem set_db_param_rejects_infinities (dbv : float) (db_onv : bool)
    (s : base_pid) :
  representable dbv = true ->
  let '(r, s') := set_db_param dbv db_onv s in
  (r = (-1)%Z <-> is_inf dbv = true) /\
  (r = (-1)%Z -> s' = s) /\
  (r <> (-1)%Z -> r = 0%Z /\ get_db_param s' = (dbv, db_onv)).
Proof.
  intros Hr. unfold set_db_param, get_db_param.
  destruct dbv as [sg | sg | | sg mt ex].
  - destruct sg; vm_compute; repeat split; intros; congruence.
  - destruct sg; cbn [is_inf];
      (replace (F32.ltb _ _ || F32.gtb _ _) with true
         by (vm_compute; reflexivity));
      repeat split; intros; congruence.
  - replace (F32.ltb _ _ || F32.gtb _ _) with false
      by (vm_compute; reflexivity).
    cbn [is_inf]. repeat split; intros; congruence.
  - pose proof (representable_within_FLT_MAX _ Hr eq_refl eq_refl) as W.
    unfold within in W. apply andb_prop in W as [W1 W2].
    unfold F32.gtb.
    rewrite (leb_ltb_false _ _ W1), (leb_ltb_false _ _ W2).
    cbn [orb is_inf fst snd db db_on set_db set_db_on].
    repeat split; intros; congruence.
Qed.

Lemma set_db_param_rejects_infinities_witness :
  representable (S754_infinity false) = true /\
  set_db_param (S754_infinity false) true pid_auto = ((-1)%Z, pid_auto).
Proof.
  split; [ reflexivity | ].
  pose proof (set_db_param_rejects_infinities (S754_infinity false) true
                pid_auto eq_refl) as T.
  destruct (set_db_param (S754_infinity false) true pid_auto) as [r s'].
  destruct T as (T1 & T2 & _).
  assert (Hr : r = (-1)%Z) by (apply T1; reflexivity).
  rewrite (T2 Hr), Hr. reflexivity.
Defined.

(** What a setter does not touch. *)
Lemma exec_setter_frame (c : call) (s : base_pid) (m : mem) :
  is_setter c = true ->
  same_transient s (fst (exec c (s, m))) /\
  snd (exec c (s, m)) = m /\
  pv (fst (exec c (s, m))) = pv s /\ sp (fst (exec c (s, m))) = sp s /\
  tb (fst (exec c (s, m))) = tb s /\ co (fst (exec c (s, m))) = co s.
Proof.
  unfold same_transient.
  destruct c as [ ll hl | ll hl | ll hl | kpv kiv kdv | dbv db_onv | man_onv
                | dtminv | tstamp | a v ]; intros Hc; try discriminate Hc;
    cbn [exec fst snd].
  - unfold set_pv_limits. destruct (F32.ltb hl ll); simpl; auto 10.
  - unfold set_sp_limits. destruct (F32.ltb hl ll); simpl; auto 10.
  - unfold set_cp_limits. destruct (F32.ltb hl ll); simpl; auto 10.
  - unfold set_gain_param. destruct (gain_rejected kpv kiv kdv); simpl;
      auto 10.
  - unfold set_db_param. case_if; simpl; auto 10.
  - unfold set_man_param. simpl; auto 10.
  - unfold set_dtmin_param. case_if; simpl; auto 10.
Qed.

(** X5: none of the seven setters touches the transient state
    ([lts], [lman_on], [Iterm], [lerr], [tmp_co]), a cell of the caller
    or a binding: no call after the construction can bind a cell. *)
Theorem setters_keep_transient_state_and_bindings (c : call) (s : base_pid)
    (m : mem) :
  is_setter c = true ->
  let s' := fst (exec c (s, m)) in
  same_transient s s' /\ snd (exec c (s, m)) = m /\
  pv s' = pv s /\ sp s' = sp s /\ tb s' = tb s /\ co s' = co s.
Proof. intros Hc. exact (exec_setter_frame c s m Hc). Qed.

Lemma setters_keep_transient_state_and_bindings_witness :
  is_setter (Call_set_gain_param (fz 1) (fz 2) (fz 3)) = true /\
  Iterm (fst (exec (Call_set_gain_param (fz 1) (fz 2) (fz 3))
                (pid_auto, mem_step))) = Iterm pid_auto.
Proof.
  split; [ reflexivity | ].
  destruct (setters_keep_transient_state_and_bindings
              (Call_set_gain_param (fz 1) (fz 2) (fz 3)) pid_auto mem_step
              eq_refl) as ((_ & _ & T & _) & _).
  exact T.
Defined.

(** X4: [set_gain_param] refuses an infinite [kpv] or [kiv]; a refused
    call returns -1 and changes nothing; an accepted call returns 0 and
    stores [kpv] as it is, so that [get_gain_param] reads it back
    unchanged, and touches nothing but the three gains. *)
Theorem set_gain_param_refuses_infinities (kpv kiv kdv : float)
    (s : base_pid) :
  let '(r, s') := set_gain_param kpv kiv kdv s in
  (is_inf kpv = true \/ is_inf kiv = true -> r = (-1)%Z) /\
  (r = (-1)%Z -> s' = s) /\
  (r <> (-1)%Z ->
   r = 0%Z /\ fst (fst (get_gain_param s')) = kpv /\
   db s' = db s /\ same_transient s s' /\
   get_co_limits s' = get_co_limits s).
Proof.
  unfold set_gain_param, get_gain_param, get_co_limits, same_transient.
  destruct (gain_rejected kpv kiv kdv) eqn:E.
  - repeat split; auto; intros; congruence.
  - split.
    + intros [H | H]; exfalso; revert E; unfold gain_rejected.
      * destruct kpv as [ | [ | ] | | ]; try discriminate H;
          vm_compute; destruct kiv; discriminate.
      * destruct kiv as [ | [ | ] | | ]; try discriminate H.
        -- replace (F32.ltb (S754_infinity true) (F32.opp F32.FLT_MAX))
             with true by (vm_compute; reflexivity).
           rewrite orb_true_r. simpl. discriminate.
        -- replace (F32.gtb (S754_infinity false) F32.FLT_MAX)
             with true by (vm_compute; reflexivity).
           rewrite !orb_true_r. simpl. discriminate.
    + split; [ intros H; discriminate H | ].
      intros _. simpl. auto 10.
Qed.

(** ** Invariants of sessions *)

Section SessionInvariant.
Variable P : base_pid -> Prop.
Variable allowed : call -> bool.
Variable Q : exit -> bool.

Hypothesis exec_keeps :
  forall c s m, allowed c = true -> P s -> P (fst (exec c (s, m))).
Hypothesis exit_ok :
  forall tstamp s m, P s -> Q (fst (fst (run_pid_at tstamp s m))) = true.

Lemma session_invariant (cs : list call) :
  forall (s : base_pid) (m : mem),
    forallb allowed cs = true -> P s ->
    P (fst (session cs (s, m))) /\ forallb Q (exits cs (s, m)) = true.
Proof.
  unfold session.
  induction cs as [ | c cs IH]; intros s m Ha HP; [ now split | ].
  cbn [forallb] in Ha. apply andb_prop in Ha as [Hc Ha].
  cbn [fold_left exits]. rewrite forallb_app.
  pose proof (exec_keeps c s m Hc HP) as HP'.
  destruct (exec c (s, m)) as [s1 m1]. cbn [fst] in HP'.
  destruct (IH s1 m1 Ha HP') as [I1 I2].
  split; [ exact I1 | ]. rewrite I2, andb_true_r.
  destruct c; try reflexivity.
  cbn [forallb fst snd]. rewrite exit_ok by exact HP. reflexivity.
Qed.
End SessionInvariant.

Lemma exec_keeps_bindings (c : call) (s : base_pid) (m : mem) :
  pv (fst (exec c (s, m))) = pv s /\ sp (fst (exec c (s, m))) = sp s /\
  co (fst (exec c (s, m))) = co s.
Proof.
  destruct (is_setter c) eqn:E.
  - destruct (exec_setter_frame c s m E) as (_ & _ & H1 & H2 & _ & H4).
    auto.
  - destruct c; try discriminate E; cbn [exec fst snd]; auto.
    pose proof (run_pid_at_same_config tstamp s m) as K.
    destruct (run_pid_at tstamp s m) as [[x s'] m']. cbn [fst snd] in *.
    destruct K as (K1 & K2 & _ & K4 & _). auto.
Qed.

(** X14: the class has no operation that binds a cell, so a controller
    with a null [pv], [sp] or [co], such as a default-constructed one,
    is refused for the missing binding by every [run_pid] of every
    session, whatever setters are called in between. *)
Theorem unbound_controller_never_runs (cs : list call) (s : base_pid)
    (m : mem) :
  pv s = nullptr \/ sp s = nullptr \/ co s = nullptr ->
  forallb is_no_binding (exits cs (s, m)) = true /\
  (let s' := fst (session cs (s, m)) in
   pv s' = nullptr \/ sp s' = nullptr \/ co s' = nullptr).
Proof.
  intros H.
  destruct (session_invariant
              (fun s => pv s = nullptr \/ sp s = nullptr \/ co s = nullptr)
              (fun _ => true) is_no_binding) with (cs := cs) (s := s) (m := m)
    as [I1 I2]; auto.
  - intros c s0 m0 _ H0.
    destruct (exec_keeps_bindings c s0 m0) as (-> & -> & ->). exact H0.
  - intros tstamp s0 m0 H0. unfold run_pid_at.
    destruct H0 as [-> | [-> | ->]]; [ reflexivity | | ].
    + destruct (pv s0); reflexivity.
    + destruct (pv s0), (sp s0); reflexivity.
  - clear. induction cs; auto.
Qed.

Lemma unbound_controller_never_runs_witness :
  pv (base_pid_default 0 F32.zero F32.zero) = nullptr /\
  forallb is_no_binding
    (exits [Call_set_dtmin_param 5; Call_run_pid 10; Call_run_pid 20]
       (base_pid_default 0 F32.zero F32.zero, mem_step)) = true.
Proof.
  split; [ reflexivity | ].
  exact (proj1 (unbound_controller_never_runs
                  [Call_set_dtmin_param 5; Call_run_pid 10; Call_run_pid 20]
                  (base_pid_default 0 F32.zero F32.zero) mem_step
                  (or_introl eq_refl))).
Defined.

Lemma exec_keeps_dtmin (c : call) (s : base_pid) (m : mem) :
  dtmin s <> 0%N -> dtmin (fst (exec c (s, m))) <> 0%N.
Proof.
  intros H.
  destruct c as [ ll hl | ll hl | ll hl | kpv kiv kdv | dbv db_onv | man_onv
                | dtminv | tstamp | a v ]; cbn [exec fst snd].
  - unfold set_pv_limits. destruct (F32.ltb hl ll); exact H.
  - unfold set_sp_limits. destruct (F32.ltb hl ll); exact H.
  - unfold set_cp_limits. destruct (F32.ltb hl ll); exact H.
  - unfold set_gain_param. destruct (gain_rejected kpv kiv kdv); exact H.
  - unfold set_db_param. case_if; exact H.
  - exact H.
  - unfold set_dtmin_param. cbn [dtmin set_dtmin].
    destruct (dtminv =? 0)%N eqn:E; cbn [snd dtmin set_dtmin].
    + apply N.eqb_eq in E. subst dtminv. discriminate.
    + now apply N.eqb_neq in E.
  - pose proof (run_pid_at_same_config tstamp s m) as K.
    destruct (run_pid_at tstamp s m) as [[x s'] m']. cbn [fst snd] in *.
    destruct K as (_ & _ & _ & _ & _ & _ & _ & _ & _ & _ & _ & _ & _ & _
                   & Kd & _).
    now rewrite Kd.
  - exact H.
Qed.

(** X15: a non-zero [dtmin] stays non-zero through every session, so
    [run_pid] never returns through the [dtmin == 0] check: that check
    can only fire on a controller constructed with [dtminv = 0] and
    never given a time slice since. *)
Theorem time_slice_stays_positive (cs : list call) (s : base_pid) (m : mem) :
  dtmin s <> 0%N ->
  dtmin (fst (session cs (s, m))) <> 0%N /\
  forallb (fun x => negb (is_zero_interval x)) (exits cs (s, m)) = true.
Proof.
  intros H.
  apply (session_invariant (fun s => dtmin s <> 0%N) (fun _ => true)
           (fun x => negb (is_zero_interval x))); auto.
  - intros c s0 m0 _ H0. now apply exec_keeps_dtmin.
  - intros tstamp s0 m0 H0. unfold run_pid_at.
    apply N.eqb_neq in H0. rewrite H0.
    destruct (pv s0), (sp s0), (co s0); try reflexivity.
    repeat case_if; reflexivity.
  - clear. induction cs; auto.
Qed.

Lemma time_slice_stays_positive_witness :
  dtmin pid_auto <> 0%N /\
  dtmin (fst (session [Call_set_dtmin_param 0; Call_run_pid 10]
                (pid_auto, mem_step))) <> 0%N.
Proof.
  assert (H : dtmin pid_auto <> 0%N) by (vm_compute; discriminate).
  split; [ exact H | ].
  exact (proj1 (time_slice_stays_positive
                  [Call_set_dtmin_param 0; Call_run_pid 10]
                  pid_auto mem_step H)).
Defined.

Lemma exec_keeps_co_limits (c : call) (s : base_pid) (m : mem) :
  sets_co_limits c = false ->
  coll (fst (exec c (s, m))) = coll s /\ cohl (fst (exec c (s, m))) = cohl s.
Proof.
  destruct c as [ ll hl | ll hl | ll hl | kpv kiv kdv | dbv db_onv | man_onv
                | dtminv | tstamp | a v ]; intros Hc; try discriminate Hc;
    cbn [exec fst snd].
  - unfold set_pv_limits. destruct (F32.ltb hl ll); simpl; auto.
  - unfold set_sp_limits. destruct (F32.ltb hl ll); simpl; auto.
  - unfold set_gain_param. destruct (gain_rejected kpv kiv kdv); simpl; auto.
  - unfold set_db_param. case_if; simpl; auto.
  - unfold set_man_param. simpl; auto.
  - unfold set_dtmin_param. case_if; simpl; auto.
  - pose proof (run_pid_at_same_config tstamp s m) as K.
    destruct (run_pid_at tstamp s m) as [[x s'] m']. cbn [fst snd] in *.
    destruct K as (_ & _ & _ & _ & _ & _ & _ & _ & _ & _ & _ & _ & K1 & K2
                   & _).
    auto.
  - auto.
Qed.

Lemma run_pid_at_output_ok (tstamp : N) (s : base_pid) (m : mem) :
  F32.leb (coll s) (cohl s) = true -> output_ok s = true ->
  output_ok (snd (fst (run_pid_at tstamp s m))) = true.
Proof.
  intros Hb Hok. pose proof (run_pid_at_output tstamp s m) as H.
  destruct (run_pid_at tstamp s m) as [[x s'] m']. cbn [fst snd].
  destruct H as (Hlo & Hhi & H). unfold output_ok in *. rewrite Hlo, Hhi.
  destruct x.
  - destruct H as [-> _]. exact Hok.
  - destruct H as [-> _]. exact Hok.
  - destruct H as [-> _]. exact Hok.
  - destruct H as [[v ->] _].
    destruct (clamp_nan_or_within (coll s) (cohl s) v Hb) as [-> | ->];
      auto using orb_true_r.
  - destruct H as [-> _]. exact Hok.
  - destruct H as [[v ->] _].
    destruct (clamp_nan_or_within (coll s) (cohl s) v Hb) as [-> | ->];
      auto using orb_true_r.
Qed.

(** X16: while the output limits are not reassigned, an ordered pair of
    limits stays as it is and the stored last output stays a NaN or
    within the limits, through every session of [run_pid] calls, other
    setters and writes of the caller. *)
Theorem output_stays_within_limits (cs : list call) (s : base_pid)
    (m : mem) :
  F32.leb (coll s) (cohl s) = true -> output_ok s = true ->
  forallb (fun c => negb (sets_co_limits c)) cs = true ->
  let s' := fst (session cs (s, m)) in
  coll s' = coll s /\ cohl s' = cohl s /\ output_ok s' = true.
Proof.
  intros Hb Hok Hcs.
  apply (session_invariant
           (fun s0 => coll s0 = coll s /\ cohl s0 = cohl s /\
                      output_ok s0 = true)
           (fun c => negb (sets_co_limits c)) (fun _ => true)); auto.
  - intros c s0 m0 Hc (Hlo & Hhi & Hok0).
    apply negb_true_iff in Hc.
    destruct (exec_keeps_co_limits c s0 m0 Hc) as [Elo Ehi].
    rewrite Elo, Ehi. repeat split; auto.
    destruct (is_setter c) eqn:E.
    + destruct (exec_setter_frame c s0 m0 E) as ((_ & _ & _ & _ & Et) & _).
      unfold output_ok in *. now rewrite Elo, Ehi, Et.
    + destruct c; try discriminate E; cbn [exec fst snd]; auto.
      pose proof (run_pid_at_output_ok tstamp s0 m0) as K.
      destruct (run_pid_at tstamp s0 m0) as [[x s'] m']. cbn [fst snd] in *.
      apply K; [ now rewrite Hlo, Hhi | exact Hok0 ].
Qed.

Lemma output_stays_within_limits_witness :
  F32.leb (coll pid_simple) (cohl pid_simple) = true /\
  output_ok pid_simple = true /\
  output_ok
    (fst (session [Call_run_pid 10; Call_set_man_param false; Call_run_pid 30]
            (pid_simple, mem_tb4))) = true.
Proof.
  assert (H1 : F32.leb (coll pid_simple) (cohl pid_simple) = true)
    by (vm_compute; reflexivity).
  assert (H2 : output_ok pid_simple = true) by (vm_compute; reflexivity).
  repeat (split; [ assumption | ]).
  exact (proj2 (proj2 (output_stays_within_limits
                  [Call_run_pid 10; Call_set_man_param false; Call_run_pid 30]
                  pid_simple mem_tb4 H1 H2 eq_refl))).
Defined.

(** ** A controller from the minimal constructor *)

(** X17: a controller from the minimal constructor, with its four
    bindings, starts in manual mode with the time slice 10 and [lts = 0]:
    its first call returns 0 and writes 0 for a timestamp below 10, and
    for a later timestamp writes the tieback value itself, for every
    finite value that binary32 can hold. *)
Theorem simple_controller_first_call (u_dt : N) (u_err u_di : float)
    (ppv psp pco ptb : addr) (m : mem) (tstamp : N) :
  (tstamp < 2 ^ 64)%N ->
  representable (load m ptb) = true ->
  is_inf (load m ptb) = false -> F32.is_nan (load m ptb) = false ->
  let s := base_pid_simple u_dt u_err u_di
             (Some ppv) (Some psp) (Some pco) (Some ptb) in
  let '(r, _, m') := run_pid tstamp s m in
  r = 0%Z /\
  m' pco = (if (tstamp <? 10)%N then F32.zero else load m ptb).
Proof.
  intros Hts Hr Hi Hn s.
  assert (Hu : u64_sub tstamp (lts s) = tstamp).
  { unfold s. cbn [lts base_pid_simple].
    rewrite u64_sub_ordered by lia. lia. }
  unfold run_pid. destruct (tstamp <? 10)%N eqn:E.
  - apply N.ltb_lt in E.
    rewrite (run_pid_at_rate_limited tstamp s m
               (ppv := ppv) (psp := psp) (pco := pco));
      try reflexivity.
    + rewrite store_same. split; reflexivity.
    + rewrite Hu. exact E.
  - apply N.ltb_ge in E.
    rewrite (run_pid_at_manual tstamp s m
               (ppv := ppv) (psp := psp) (pco := pco));
      try reflexivity.
    + cbv zeta. rewrite store_same. split; [ reflexivity | ].
      unfold s. cbn [coll cohl tb base_pid_simple].
      apply clamp_fixes_within.
      now apply representable_within_FLT_MAX.
    + discriminate.
    + rewrite Hu. exact E.
Qed.

Lemma simple_controller_first_call_witness :
  (10 < 2 ^ 64)%N /\ representable (load mem_tb4 3%N) = true /\
  snd (run_pid 10 pid_simple mem_tb4) 2%N = fz 4.
Proof.
  assert (H1 : (10 < 2 ^ 64)%N) by (vm_compute; reflexivity).
  assert (H2 : representable (load mem_tb4 3%N) = true)
    by (vm_compute; reflexivity).
  repeat (split; [ assumption | ]).
  pose proof (simple_controller_first_call 0 F32.zero F32.zero
                0%N 1%N 2%N 3%N mem_tb4 10 H1 H2 eq_refl eq_refl) as T.
  vm_compute in T. vm_compute. exact (proj2 T).
Defined.

(** ** The deadband is one-sided *)

Lemma negative_below_nonnegative (x d : float) :
  F32.ltb x F32.zero = true -> F32.leb F32.zero d = true ->
  F32.ltb x d = true.
Proof.
  unfold F32.ltb, F32.leb, SFltb, SFleb, F32.zero.
  destruct x as [sx | [ | ] | | [ | ] mx ex]; simpl; try discriminate;
    destruct d as [sd | [ | ] | | [ | ] md ed]; simpl; try discriminate;
    reflexivity.
Qed.

(** X13: the gate compares the signed error.  With the deadband on and
    a threshold that is not negative, every effective automatic cycle
    whose error [*sp - *pv] is negative, however large, is gated: the
    call returns 0 and writes the previous output again. *)
Theorem deadband_gates_every_negative_error (tstamp : N) (s : base_pid)
    (m : mem) (ppv psp pco : addr) :
  auto_cycle tstamp s ppv psp pco ->
  db_on s = true ->
  F32.leb F32.zero (db s) = true ->
  F32.ltb (F32.sub (load m psp) (load m ppv)) F32.zero = true ->
  let '(x, s', m') := run_pid_at tstamp s m in
  x = ExitDeadband /\ m' pco = tmp_co s /\ tmp_co s' = tmp_co s.
Proof.
  intros ((Hpv & Hsp & Hco & Hd) & Hle & Hman) Hon Hdb Hneg.
  rewrite (run_pid_at_auto tstamp s m Hpv Hsp Hco Hd Hle Hman).
  destruct (at_gate_fields tstamp s m ppv psp)
    as (Herr & _ & _ & Hco0 & _).
  rewrite Herr, Hon, (negative_below_nonnegative _ _ Hneg Hdb).
  cbn [andb]. rewrite store_same. cbn [tmp_co set_lerr]. auto.
Qed.

Lemma deadband_gates_every_negative_error_witness :
  auto_cycle 1000 pid_deadband 0%N 1%N 2%N /\
  db_on pid_deadband = true /\
  F32.leb F32.zero (db pid_deadband) = true /\
  F32.ltb (F32.sub (load (cells (fz 1000) (fz 0) (fz 0) (fz 2)) 1%N)
                   (load (cells (fz 1000) (fz 0) (fz 0) (fz 2)) 0%N))
          F32.zero = true /\
  fst (fst (run_pid_at 1000 pid_deadband
              (cells (fz 1000) (fz 0) (fz 0) (fz 2)))) = ExitDeadband.
Proof.
  assert (H1 : auto_cycle 1000 pid_deadband 0%N 1%N 2%N).
  { repeat split; vm_compute; try reflexivity; discriminate. }
  assert (H2 : db_on pid_deadband = true) by (vm_compute; reflexivity).
  assert (H3 : F32.leb F32.zero (db pid_deadband) = true)
    by (vm_compute; reflexivity).
  assert (H4 : F32.ltb
                 (F32.sub (load (cells (fz 1000) (fz 0) (fz 0) (fz 2)) 1%N)
                          (load (cells (fz 1000) (fz 0) (fz 0) (fz 2)) 0%N))
                 F32.zero = true) by (vm_compute; reflexivity).
  repeat (split; [ assumption | ]).
  pose proof (deadband_gates_every_negative_error 1000 pid_deadband
                (cells (fz 1000) (fz 0) (fz 0) (fz 2)) 0%N 1%N 2%N
                H1 H2 H3 H4) as T.
  destruct (run_pid_at 1000 pid_deadband
              (cells (fz 1000) (fz 0) (fz 0) (fz 2))) as [[x s'] m'].
  exact (proj1 T).
Defined.

(** The gains of [pid2] in the Constructors test read back as 4, 3
    and 2. *)
Example test_gain_readback :
  get_gain_param
    (base_pid_gains a_pv a_sp a_co a_tb (fz 4) (fz 3) (fz 2) (fz 1))
  = (fz 4, fz 3, fz 2).
Proof. vm_compute. reflexivity. Qed.
